(** * Seat registry of mpx_wayland: a shallow embedding

    The development follows [src/mpx_wayland/core/models.py] (the data model),
    [src/mpx_wayland/core/seat_manager.py] (the registry [SeatManager]) and
    the part of [src/mpx_wayland/simulation/simulator.py] that drives the
    registry (module [Sim]).

    Conventions of the embedding.
    - Python dictionaries keyed by identifiers are [gmap string _], Python
      sets of identifiers are [gset string].  An object reached through a
      dictionary ([self._seats[k]], [self._devices[k]]) and mutated in place is
      an update of the map at that key.
    - Cursor coordinates and motion deltas are exact integers ([Z]); the
      rounding of binary floating point is outside the model.
    - A registry method is a computation [M A] that threads the registry,
      records the events handed to [_emit_event] together with the listener
      calls they caused, and either returns a value or raises one of the
      registry's exceptions.  A raise keeps whatever was mutated before it, as
      in Python.
    - The two sources of non-determinism are made arguments: the 128 random
      bits drawn by [uuid.uuid4()] in [Seat()], and the clock read by
      [datetime.now()] in [Grab()].
    - Listeners are observers: a callback either returns or raises an
      [Exception]; it does not call back into the registry.
    - What depends on the insertion order of [self._seats] and
      [self._devices] is not modelled: [get_seat_by_name], the list
      properties, [get_status] and the simulator's [connect_device]. *)

From Stdlib Require Import ZArith NArith String Ascii List Lia.
From stdpp Require Import base gmap strings list fin_maps pretty.

Open Scope string_scope.
Open Scope Z_scope.

#[local] Set Warnings "-clear-no-such-hyp".

(* ===================================================================== *)
(** ** models.py: enumerations *)
(* ===================================================================== *)

Module DeviceType.
Inductive t := POINTER | KEYBOARD | TOUCH | TABLET | UNKNOWN.
End DeviceType.

Module DeviceCapability.
Inductive t := POINTER | KEYBOARD | TOUCH | TABLET_TOOL | TABLET_PAD | GESTURE | SWITCH.

Definition to_nat (c : t) : nat :=
  match c with
  | POINTER => 1 | KEYBOARD => 2 | TOUCH => 3 | TABLET_TOOL => 4
  | TABLET_PAD => 5 | GESTURE => 6 | SWITCH => 7
  end%nat.

Definition of_nat (n : nat) : t :=
  match n with
  | 1 => POINTER | 2 => KEYBOARD | 3 => TOUCH | 4 => TABLET_TOOL
  | 5 => TABLET_PAD | 6 => GESTURE | _ => SWITCH
  end%nat.

#[global] Instance capability_eq_dec : EqDecision t.
Proof. solve_decision. Defined.

#[global] Instance capability_countable : Countable t.
Proof. apply (inj_countable' to_nat of_nat). by intros []. Defined.
End DeviceCapability.

Module GrabMode.
Inductive t := NONE | POINTER_LOCK | POINTER_CONFINE | KEYBOARD.

#[global] Instance grab_mode_eq_dec : EqDecision t.
Proof. solve_decision. Defined.
End GrabMode.

Module SeatState.
Inductive t := ACTIVE | INACTIVE | SUSPENDED.

#[global] Instance seat_state_eq_dec : EqDecision t.
Proof. solve_decision. Defined.
End SeatState.

(* ===================================================================== *)
(** ** models.py: Position, InputDevice, Cursor, Grab, FocusState *)
(* ===================================================================== *)

Module Position.
Record t := mk { x : Z; y : Z }.

(** [Position()] *)
Definition default : t := mk 0 0.

(** [Position.move] *)
Definition move (self : t) (dx dy : Z) : t := mk (x self + dx) (y self + dy).

(** [Position.clamp]: [max(min_x, min(max_x, self.x))] and the same for y. *)
Definition clamp (self : t) (min_x min_y max_x max_y : Z) : t :=
  mk (Z.max min_x (Z.min max_x (x self)))
     (Z.max min_y (Z.min max_y (y self))).
End Position.

Module InputDevice.
Record t := mk {
  id : string;
  name : string;
  device_type : DeviceType.t;
  capabilities : gset DeviceCapability.t;
  vendor_id : Z;
  product_id : Z;
  sysfs_path : string;
  seat_id : option string;
  is_available : bool
}.

(** The assignment [device.seat_id = v]. *)
Definition set_seat_id (v : option string) (d : t) : t :=
  mk (id d) (name d) (device_type d) (capabilities d) (vendor_id d)
     (product_id d) (sysfs_path d) v (is_available d).

(** [InputDevice.is_assigned] *)
Definition is_assigned (d : t) : bool :=
  match seat_id d with Some _ => true | None => false end.

(** [InputDevice.has_capability] *)
Definition has_capability (d : t) (cap : DeviceCapability.t) : bool :=
  bool_decide (cap ∈ capabilities d).
End InputDevice.

Module Cursor.
Record t := mk {
  position : Position.t;
  visible : bool;
  cursor_theme : string;
  cursor_name : string;
  hotspot_x : Z;
  hotspot_y : Z
}.

(** [Cursor()] *)
Definition default : t := mk Position.default true "default" "left_ptr" 0 0.

(** The assignment [cursor.position = p]. *)
Definition set_position (p : Position.t) (c : t) : t :=
  mk p (visible c) (cursor_theme c) (cursor_name c) (hotspot_x c) (hotspot_y c).

(** [Cursor.move_to] *)
Definition move_to (x y : Z) (c : t) : t := set_position (Position.mk x y) c.

(** [Cursor.move_by] *)
Definition move_by (dx dy : Z) (c : t) : t :=
  set_position (Position.move (position c) dx dy) c.
End Cursor.

Module Grab.
Record t := mk {
  mode : GrabMode.t;
  client_id : string;
  surface_id : option string;
  started_at : Z
}.

(** [Grab.is_active]: [self.mode != GrabMode.NONE] *)
Definition is_active (g : t) : bool := negb (bool_decide (mode g = GrabMode.NONE)).
End Grab.

Module FocusState.
Record t := mk {
  pointer_focus : option string;
  keyboard_focus : option string
}.

Definition default : t := mk None None.
End FocusState.

(* ===================================================================== *)
(** ** The identifier drawn by [Seat()]: [str(uuid.uuid4())] *)
(* ===================================================================== *)

Definition hex_digit (n : N) : ascii :=
  match n with
  | 0 => "0" | 1 => "1" | 2 => "2" | 3 => "3" | 4 => "4" | 5 => "5"
  | 6 => "6" | 7 => "7" | 8 => "8" | 9 => "9" | 10 => "a" | 11 => "b"
  | 12 => "c" | 13 => "d" | 14 => "e" | _ => "f"
  end%N%char.

(** The [k] low hexadecimal digits of [n], most significant first
    (['%032x' % n] for [k = 32]). *)
Fixpoint hex_digits (k : nat) (n : N) (acc : string) : string :=
  match k with
  | O => acc
  | S k' => hex_digits k' (N.shiftr n 4) (String (hex_digit (N.land n 15)) acc)
  end.

(** [uuid.UUID(bytes=os.urandom(16), version=4).int], from the random bits:
    the variant bits are set to RFC 4122 and the version nibble to 4. *)
Definition uuid4_int (random : N) : N :=
  let i := N.land random (N.ones 128) in
  let i := N.lor (N.ldiff i (N.shiftl 49152 48)) (N.shiftl 32768 48) in
  N.lor (N.ldiff i (N.shiftl 61440 64)) (N.shiftl 4 76).

(** [str(uuid)]: the 8-4-4-4-12 rendering of the 32 hexadecimal digits. *)
Definition uuid_str (i : N) : string :=
  let h := hex_digits 32 i "" in
  substring 0 8 h +:+ "-" +:+ substring 8 4 h +:+ "-" +:+ substring 12 4 h
  +:+ "-" +:+ substring 16 4 h +:+ "-" +:+ substring 20 12 h.

Definition uuid4 (random : N) : string := uuid_str (uuid4_int random).

(* ===================================================================== *)
(** ** models.py: Seat, DisplayBounds *)
(* ===================================================================== *)

Module Seat.
Record t := mk {
  id : string;
  name : string;
  state : SeatState.t;
  cursor : Cursor.t;
  focus : FocusState.t;
  pointer_grab : option Grab.t;
  keyboard_grab : option Grab.t;
  pointer_devices : gset string;
  keyboard_devices : gset string
}.

(** [Seat(name=name)]; [random] is what [uuid.uuid4()] draws. *)
Definition new (random : N) (name : string) : t :=
  mk (uuid4 random) name SeatState.ACTIVE Cursor.default FocusState.default
     None None ∅ ∅.

Definition set_state (v : SeatState.t) (s : t) : t :=
  mk (id s) (name s) v (cursor s) (focus s) (pointer_grab s) (keyboard_grab s)
     (pointer_devices s) (keyboard_devices s).

Definition set_cursor (v : Cursor.t) (s : t) : t :=
  mk (id s) (name s) (state s) v (focus s) (pointer_grab s) (keyboard_grab s)
     (pointer_devices s) (keyboard_devices s).

Definition set_pointer_grab_field (v : option Grab.t) (s : t) : t :=
  mk (id s) (name s) (state s) (cursor s) (focus s) v (keyboard_grab s)
     (pointer_devices s) (keyboard_devices s).

Definition set_pointer_devices (v : gset string) (s : t) : t :=
  mk (id s) (name s) (state s) (cursor s) (focus s) (pointer_grab s)
     (keyboard_grab s) v (keyboard_devices s).

Definition set_keyboard_devices (v : gset string) (s : t) : t :=
  mk (id s) (name s) (state s) (cursor s) (focus s) (pointer_grab s)
     (keyboard_grab s) (pointer_devices s) v.

(** [Seat.is_pointer_grabbed]:
    [self.pointer_grab is not None and self.pointer_grab.is_active] *)
Definition is_pointer_grabbed (s : t) : bool :=
  match pointer_grab s with
  | Some g => Grab.is_active g
  | None => false
  end.

(** [Seat.add_pointer_device]: [self.pointer_devices.add(device_id)] *)
Definition add_pointer_device (device_id : string) (s : t) : t :=
  set_pointer_devices ({[device_id]} ∪ pointer_devices s) s.

(** [Seat.add_keyboard_device] *)
Definition add_keyboard_device (device_id : string) (s : t) : t :=
  set_keyboard_devices ({[device_id]} ∪ keyboard_devices s) s.

(** [Seat.remove_pointer_device]: [self.pointer_devices.discard(device_id)] *)
Definition remove_pointer_device (device_id : string) (s : t) : t :=
  set_pointer_devices (pointer_devices s ∖ {[device_id]}) s.

(** [Seat.remove_keyboard_device] *)
Definition remove_keyboard_device (device_id : string) (s : t) : t :=
  set_keyboard_devices (keyboard_devices s ∖ {[device_id]}) s.

(** [Seat.set_pointer_grab]; [now] is what [datetime.now()] reads. *)
Definition set_pointer_grab (client_id : string) (mode : GrabMode.t)
    (surface_id : option string) (now : Z) (s : t) : t :=
  set_pointer_grab_field (Some (Grab.mk mode client_id surface_id now)) s.

(** [Seat.release_pointer_grab] *)
Definition release_pointer_grab (s : t) : t := set_pointer_grab_field None s.

(** [Seat.has_pointer]: [len(self.pointer_devices) > 0] *)
Definition has_pointer (s : t) : bool :=
  bool_decide (0 < size (pointer_devices s))%nat.

(** [Seat.has_keyboard] *)
Definition has_keyboard (s : t) : bool :=
  bool_decide (0 < size (keyboard_devices s))%nat.

(** [Seat.is_complete] *)
Definition is_complete (s : t) : bool := has_pointer s && has_keyboard s.

(** [Seat.is_keyboard_grabbed] *)
Definition is_keyboard_grabbed (s : t) : bool :=
  match keyboard_grab s with
  | Some g => Grab.is_active g
  | None => false
  end.

Definition set_keyboard_grab_field (v : option Grab.t) (s : t) : t :=
  mk (id s) (name s) (state s) (cursor s) (focus s) (pointer_grab s) v
     (pointer_devices s) (keyboard_devices s).

(** [Seat.set_keyboard_grab]; the mode is always [GrabMode.KEYBOARD]. *)
Definition set_keyboard_grab (client_id : string) (surface_id : option string)
    (now : Z) (s : t) : t :=
  set_keyboard_grab_field
    (Some (Grab.mk GrabMode.KEYBOARD client_id surface_id now)) s.

(** [Seat.release_keyboard_grab] *)
Definition release_keyboard_grab (s : t) : t := set_keyboard_grab_field None s.
End Seat.

Module DisplayBounds.
Record t := mk { x : Z; y : Z; width : Z; height : Z; name : string }.

(** [DisplayBounds()] *)
Definition default : t := mk 0 0 1920 1080 "default".

(** [DisplayBounds.contains] *)
Definition contains (b : t) (pos : Position.t) : bool :=
  (x b <=? Position.x pos) && (Position.x pos <? x b + width b) &&
  (y b <=? Position.y pos) && (Position.y pos <? y b + height b).
End DisplayBounds.


(* ===================================================================== *)
(** ** seat_manager.py: events, listeners, exceptions *)
(* ===================================================================== *)

Module EventType.
Inductive t :=
  | SEAT_CREATED | SEAT_DESTROYED | SEAT_STATE_CHANGED
  | DEVICE_ADDED | DEVICE_REMOVED | DEVICE_ASSIGNED | DEVICE_UNASSIGNED
  | POINTER_MOTION | POINTER_BUTTON | POINTER_AXIS | KEYBOARD_KEY
  | GRAB_STARTED | GRAB_ENDED | FOCUS_CHANGED.
End EventType.

(** The values stored in an event's [data] dictionary. *)
Inductive DataValue :=
  | VStr (s : string)
  | VNum (z : Z)
  | VBool (b : bool)
  | VSeatState (s : SeatState.t)
  | VGrabMode (g : GrabMode.t)
  | VDeviceType (d : DeviceType.t).

Module Event.
Record t := mk {
  event_type : EventType.t;
  seat_id : option string;
  device_id : option string;
  data : list (string * DataValue)
}.
End Event.

(** What a call [listener(event)] does: it returns, or raises an exception
    (an instance of [Exception], carrying its text). *)
Inductive Outcome := Returned | Raised (exc : string).

(** An [EventCallback].  [listener_key] is the callable's identity, which is
    what [in] and [list.remove] compare. *)
Record Listener := mkListener {
  listener_key : nat;
  callback : Event.t → Outcome
}.

(** One listener call made by [_emit_event], and what [logger.error] wrote
    for it, if anything. *)
Record Call := mkCall {
  call_listener : nat;
  call_logged : option string
}.

(** One [_emit_event]: the event and the listener calls, in call order. *)
Record Emission := mkEmission {
  emitted : Event.t;
  calls : list Call
}.

(** [SeatManagerError] and its subclasses, with the exception text. *)
Inductive Error :=
  | SeatManagerError (msg : string)
  | SeatNotFoundError (msg : string)
  | DeviceNotFoundError (msg : string)
  | DeviceAlreadyAssignedError (msg : string).

(* ===================================================================== *)
(** ** seat_manager.py: the registry and its computations *)
(* ===================================================================== *)

Record SeatManager := mkSeatManager {
  _seats : gmap string Seat.t;
  _devices : gmap string InputDevice.t;
  _event_listeners : list Listener;
  _display_bounds : DisplayBounds.t;
  _default_seat_id : string
}.

Definition set_seats (v : gmap string Seat.t) (m : SeatManager) : SeatManager :=
  mkSeatManager v (_devices m) (_event_listeners m) (_display_bounds m)
                (_default_seat_id m).

Definition set_devices (v : gmap string InputDevice.t) (m : SeatManager) : SeatManager :=
  mkSeatManager (_seats m) v (_event_listeners m) (_display_bounds m)
                (_default_seat_id m).

Definition set_event_listeners (v : list Listener) (m : SeatManager) : SeatManager :=
  mkSeatManager (_seats m) (_devices m) v (_display_bounds m) (_default_seat_id m).

Definition set_bounds (v : DisplayBounds.t) (m : SeatManager) : SeatManager :=
  mkSeatManager (_seats m) (_devices m) (_event_listeners m) v (_default_seat_id m).

Definition set_default_seat_id (v : string) (m : SeatManager) : SeatManager :=
  mkSeatManager (_seats m) (_devices m) (_event_listeners m) (_display_bounds m) v.

(** The outcome of running a method: the registry as the call leaves it, the
    emissions it made, and the value returned or the exception raised. *)
Record Run (A : Type) := mkRun {
  run_state : SeatManager;
  run_trace : list Emission;
  run_result : Error + A
}.
Arguments mkRun {A} _ _ _.
Arguments run_state {A} _.
Arguments run_trace {A} _.
Arguments run_result {A} _.

Definition M (A : Type) : Type := SeatManager → Run A.

#[global] Instance M_ret : MRet M := λ A a m, mkRun m [] (inr a).

(** Sequencing: an exception of the first computation ends the method with
    the registry as that computation left it; otherwise the second one runs
    from there and the emissions add up. *)
#[global] Instance M_bind : MBind M := λ A B k c m,
  match c m with
  | mkRun m1 t1 (inl e) => mkRun m1 t1 (inl e)
  | mkRun m1 t1 (inr a) =>
      match k a m1 with
      | mkRun m2 t2 res => mkRun m2 (t1 ++ t2) res
      end
  end.

#[global] Instance M_fmap : FMap M := λ A B f c, a ← c; mret (f a).

(** [raise e] *)
Definition raise {A} (e : Error) : M A := λ m, mkRun m [] (inl e).

(** Reading [self]. *)
Definition get : M SeatManager := λ m, mkRun m [] (inr m).

(** An in-place update of [self]. *)
Definition modify (f : SeatManager → SeatManager) : M unit :=
  λ m, mkRun (f m) [] (inr ()).

(** In-place updates of the object stored at a key. *)
Definition modify_seat (seat_id : string) (f : Seat.t → Seat.t) : M unit :=
  modify (λ m, set_seats (alter f seat_id (_seats m)) m).

Definition modify_device (device_id : string)
    (f : InputDevice.t → InputDevice.t) : M unit :=
  modify (λ m, set_devices (alter f device_id (_devices m)) m).

(** Python truthiness of an [Optional[str]]: [None] and the empty string
    are false. *)
Definition truthy (o : option string) : bool :=
  match o with
  | Some s => negb (bool_decide (s = ""))
  | None => false
  end.

(** The loop of [_emit_event]: every listener is called in list order; an
    exception raised by a listener is caught, logged, and the loop goes on. *)
Fixpoint call_listeners (listeners : list Listener) (event : Event.t) : list Call :=
  match listeners with
  | [] => []
  | listener :: rest =>
      match callback listener event with
      | Returned =>
          mkCall (listener_key listener) None :: call_listeners rest event
      | Raised e =>
          mkCall (listener_key listener) (Some ("Event listener error: " +:+ e))
          :: call_listeners rest event
      end
  end.

(** [SeatManager._emit_event] *)
Definition _emit_event (event : Event.t) : M unit :=
  λ m, mkRun m [mkEmission event (call_listeners (_event_listeners m) event)] (inr ()).

(** [SeatManager.set_display_bounds] *)
Definition set_display_bounds (bounds : DisplayBounds.t) : M unit :=
  modify (set_bounds bounds).

(** [SeatManager.add_event_listener] *)
Definition add_event_listener (cb : Listener) : M unit :=
  modify (λ m, set_event_listeners (_event_listeners m ++ [cb]) m).

(** [list.remove]: drops the first element equal to the callback. *)
Fixpoint remove_first (key : nat) (l : list Listener) : list Listener :=
  match l with
  | [] => []
  | x :: rest =>
      if bool_decide (listener_key x = key) then rest
      else x :: remove_first key rest
  end.

(** [SeatManager.remove_event_listener] *)
Definition remove_event_listener (cb : Listener) : M unit :=
  modify (λ m, set_event_listeners
                 (remove_first (listener_key cb) (_event_listeners m)) m).

(** [SeatManager.create_seat] *)
Definition create_seat (name : string) (random : N) : M string :=
  let seat := Seat.new random name in
  modify (λ m, set_seats (<[Seat.id seat := seat]> (_seats m)) m);;
  _emit_event (Event.mk EventType.SEAT_CREATED (Some (Seat.id seat)) None
                        [("name", VStr name)]);;
  mret (Seat.id seat).

(** [SeatManager.__init__]: the registry a constructor call yields. *)
Definition __init__ (default_seat_name : string) (random : N) : SeatManager :=
  let self := mkSeatManager ∅ ∅ [] DisplayBounds.default "" in
  let r := create_seat default_seat_name random self in
  match run_result r with
  | inr seat_id => set_default_seat_id seat_id (run_state r)
  | inl _ => run_state r
  end.

(** The loop of [destroy_seat] that clears the assignment of the listed
    devices. *)
Definition clear_assignments (ids : list string)
    (devices : gmap string InputDevice.t) : gmap string InputDevice.t :=
  foldl (λ devs device_id,
           match devs !! device_id with
           | Some _ => alter (InputDevice.set_seat_id None) device_id devs
           | None => devs
           end) devices ids.

(** [SeatManager.destroy_seat] *)
Definition destroy_seat (seat_id : string) : M unit :=
  self ← get;
  match _seats self !! seat_id with
  | None => raise (SeatNotFoundError ("Seat " +:+ seat_id +:+ " not found"))
  | Some seat =>
      if bool_decide (seat_id = _default_seat_id self) then
        raise (SeatManagerError "Cannot destroy the default seat")
      else
        modify (λ m, set_devices
                       (clear_assignments
                          (elements (Seat.pointer_devices seat)
                           ++ elements (Seat.keyboard_devices seat))
                          (_devices m)) m);;
        modify (λ m, set_seats (delete seat_id (_seats m)) m);;
        _emit_event (Event.mk EventType.SEAT_DESTROYED (Some seat_id) None
                              [("name", VStr (Seat.name seat))])
  end.

(** [SeatManager.get_seat] *)
Definition get_seat (seat_id : string) : M Seat.t :=
  self ← get;
  match _seats self !! seat_id with
  | None => raise (SeatNotFoundError ("Seat " +:+ seat_id +:+ " not found"))
  | Some seat => mret seat
  end.

(** [SeatManager.set_seat_state] *)
Definition set_seat_state (seat_id : string) (state : SeatState.t) : M unit :=
  seat ← get_seat seat_id;
  let old_state := Seat.state seat in
  modify_seat seat_id (Seat.set_state state);;
  _emit_event (Event.mk EventType.SEAT_STATE_CHANGED (Some seat_id) None
                        [("old_state", VSeatState old_state);
                         ("new_state", VSeatState state)]).

(** [SeatManager.register_device] *)
Definition register_device (device : InputDevice.t) : M unit :=
  modify (λ m, set_devices (<[InputDevice.id device := device]> (_devices m)) m);;
  _emit_event (Event.mk EventType.DEVICE_ADDED None (Some (InputDevice.id device))
                        [("name", VStr (InputDevice.name device));
                         ("type", VDeviceType (InputDevice.device_type device))]).

(** [SeatManager.get_device] *)
Definition get_device (device_id : string) : M InputDevice.t :=
  self ← get;
  match _devices self !! device_id with
  | None => raise (DeviceNotFoundError ("Device " +:+ device_id +:+ " not found"))
  | Some device => mret device
  end.

(** [SeatManager.unassign_device] *)
Definition unassign_device (device_id : string) : M unit :=
  device ← get_device device_id;
  match InputDevice.seat_id device with
  | None => mret ()
  | Some seat_id =>
      if negb (truthy (InputDevice.seat_id device)) then mret ()
      else
        (* [seat = self._seats.get(seat_id)]; [if seat:] updates it in place *)
        modify_seat seat_id (λ seat, Seat.remove_keyboard_device device_id
                                       (Seat.remove_pointer_device device_id seat));;
        modify_device device_id (InputDevice.set_seat_id None);;
        _emit_event (Event.mk EventType.DEVICE_UNASSIGNED (Some seat_id)
                              (Some device_id)
                              [("device_name", VStr (InputDevice.name device))])
  end.

(** [SeatManager.unregister_device] *)
Definition unregister_device (device_id : string) : M unit :=
  self ← get;
  match _devices self !! device_id with
  | None => raise (DeviceNotFoundError ("Device " +:+ device_id +:+ " not found"))
  | Some device =>
      (if truthy (InputDevice.seat_id device) then unassign_device device_id
       else mret ());;
      modify (λ m, set_devices (delete device_id (_devices m)) m);;
      _emit_event (Event.mk EventType.DEVICE_REMOVED None (Some device_id)
                            [("name", VStr (InputDevice.name device))])
  end.

(** [SeatManager.assign_device] *)
Definition assign_device (device_id seat_id : string) (force : bool) : M unit :=
  device ← get_device device_id;
  seat ← get_seat seat_id;
  if truthy (InputDevice.seat_id device) && negb force then
    raise (DeviceAlreadyAssignedError
             ("Device " +:+ device_id +:+ " already assigned to seat "
              +:+ default "None" (InputDevice.seat_id device)))
  else
    (if truthy (InputDevice.seat_id device) then unassign_device device_id
     else mret ());;
    modify_device device_id (InputDevice.set_seat_id (Some seat_id));;
    (if InputDevice.has_capability device DeviceCapability.POINTER
     then modify_seat seat_id (Seat.add_pointer_device device_id)
     else mret ());;
    (if InputDevice.has_capability device DeviceCapability.KEYBOARD
     then modify_seat seat_id (Seat.add_keyboard_device device_id)
     else mret ());;
    _emit_event (Event.mk EventType.DEVICE_ASSIGNED (Some seat_id) (Some device_id)
                          [("device_name", VStr (InputDevice.name device));
                           ("seat_name", VStr (Seat.name seat))]).

(** [SeatManager.auto_assign_device] *)
Definition auto_assign_device (device_id : string) : M string :=
  self ← get;
  assign_device device_id (_default_seat_id self) false;;
  mret (_default_seat_id self).

(** The guard shared by the three [route_*] methods: the seat the event is
    routed to, if any, with the key it is stored under.
    [device = self._devices.get(device_id)];
    [if not device or not device.seat_id: return None];
    [seat = self._seats.get(device.seat_id)];
    [if not seat or seat.state != SeatState.ACTIVE: return None]. *)
Definition routed_seat (self : SeatManager) (device_id : string)
    : option (string * Seat.t) :=
  match _devices self !! device_id with
  | None => None
  | Some device =>
      match InputDevice.seat_id device with
      | None => None
      | Some seat_id =>
          if negb (truthy (InputDevice.seat_id device)) then None
          else
            match _seats self !! seat_id with
            | None => None
            | Some seat =>
                if bool_decide (Seat.state seat = SeatState.ACTIVE)
                then Some (seat_id, seat) else None
            end
      end
  end.

(** [SeatManager.route_pointer_motion].  [moved] and [clamped] are the
    seat object after [seat.cursor.move_by(dx, dy)] and after the assignment
    of the clamped position. *)
Definition route_pointer_motion (device_id : string) (dx dy : Z) : M (option string) :=
  self ← get;
  match routed_seat self device_id with
  | None => mret None
  | Some (key, seat) =>
      let bounds := _display_bounds self in
      let moved := Seat.set_cursor (Cursor.move_by dx dy (Seat.cursor seat)) seat in
      modify_seat key (λ _, moved);;
      let clamped :=
        Seat.set_cursor
          (Cursor.set_position
             (Position.clamp (Cursor.position (Seat.cursor moved))
                (DisplayBounds.x bounds)
                (DisplayBounds.y bounds)
                (DisplayBounds.x bounds + DisplayBounds.width bounds - 1)
                (DisplayBounds.y bounds + DisplayBounds.height bounds - 1))
             (Seat.cursor moved)) moved in
      modify_seat key (λ _, clamped);;
      _emit_event (Event.mk EventType.POINTER_MOTION (Some (Seat.id clamped))
                            (Some device_id)
                            [("dx", VNum dx); ("dy", VNum dy);
                             ("x", VNum (Position.x (Cursor.position (Seat.cursor clamped))));
                             ("y", VNum (Position.y (Cursor.position (Seat.cursor clamped))))]);;
      mret (Some (Seat.id clamped))
  end.

(** [SeatManager.route_pointer_button] *)
Definition route_pointer_button (device_id : string) (button : Z)
    (pressed : bool) : M (option string) :=
  self ← get;
  match routed_seat self device_id with
  | None => mret None
  | Some (_, seat) =>
      _emit_event (Event.mk EventType.POINTER_BUTTON (Some (Seat.id seat))
                            (Some device_id)
                            [("button", VNum button); ("pressed", VBool pressed)]);;
      mret (Some (Seat.id seat))
  end.

(** [SeatManager.route_keyboard_key] *)
Definition route_keyboard_key (device_id : string) (key : Z)
    (pressed : bool) : M (option string) :=
  self ← get;
  match routed_seat self device_id with
  | None => mret None
  | Some (_, seat) =>
      _emit_event (Event.mk EventType.KEYBOARD_KEY (Some (Seat.id seat))
                            (Some device_id)
                            [("key", VNum key); ("pressed", VBool pressed)]);;
      mret (Some (Seat.id seat))
  end.

(** [SeatManager.request_pointer_grab]; [now] is the clock reading taken
    when the [Grab] is built. *)
Definition request_pointer_grab (seat_id client_id : string) (mode : GrabMode.t)
    (surface_id : option string) (now : Z) : M bool :=
  seat ← get_seat seat_id;
  if Seat.is_pointer_grabbed seat then mret false
  else
    modify_seat seat_id (Seat.set_pointer_grab client_id mode surface_id now);;
    _emit_event (Event.mk EventType.GRAB_STARTED (Some seat_id) None
                          [("type", VStr "pointer"); ("mode", VGrabMode mode);
                           ("client_id", VStr client_id)]);;
    mret true.

(** [SeatManager.release_pointer_grab] *)
Definition release_pointer_grab (seat_id : string) : M unit :=
  seat ← get_seat seat_id;
  if negb (Seat.is_pointer_grabbed seat) then mret ()
  else
    modify_seat seat_id Seat.release_pointer_grab;;
    _emit_event (Event.mk EventType.GRAB_ENDED (Some seat_id) None
                          [("type", VStr "pointer")]).

(** [SeatManager.get_active_grabs]: the loop over [self._seats.values()]
    that stores [seat.pointer_grab.mode] under [seat.id] for every seat whose
    pointer is grabbed. *)
Definition get_active_grabs (self : SeatManager) : gmap string GrabMode.t :=
  map_fold (λ _ seat grabs,
              if Seat.is_pointer_grabbed seat then
                match Seat.pointer_grab seat with
                | Some grab => <[Seat.id seat := Grab.mode grab]> grabs
                | None => grabs
                end
              else grabs)
           ∅ (_seats self).

(** [SeatManager.default_seat]: [self._seats[self._default_seat_id]];
    [None] stands for the [KeyError] of a missing key. *)
Definition default_seat (self : SeatManager) : option Seat.t :=
  _seats self !! _default_seat_id self.

(** [SeatManager.get_seat_for_device] *)
Definition get_seat_for_device (self : SeatManager) (device_id : string)
    : option Seat.t :=
  match _devices self !! device_id with
  | None => None
  | Some device =>
      match InputDevice.seat_id device with
      | None => None
      | Some seat_id =>
          if negb (truthy (InputDevice.seat_id device)) then None
          else _seats self !! seat_id
      end
  end.

(* ===================================================================== *)
(** ** The public operations as data, and reachable registries *)
(* ===================================================================== *)

(** A call of a public method that can change the registry, with its
    arguments (and, for [create_seat] and [request_pointer_grab], what the
    random source and the clock yield during the call). *)
Inductive Op :=
  | CreateSeat (name : string) (random : N)
  | DestroySeat (seat_id : string)
  | SetSeatState (seat_id : string) (state : SeatState.t)
  | RegisterDevice (device : InputDevice.t)
  | UnregisterDevice (device_id : string)
  | AssignDevice (device_id seat_id : string) (force : bool)
  | UnassignDevice (device_id : string)
  | AutoAssignDevice (device_id : string)
  | RoutePointerMotion (device_id : string) (dx dy : Z)
  | RoutePointerButton (device_id : string) (button : Z) (pressed : bool)
  | RouteKeyboardKey (device_id : string) (key : Z) (pressed : bool)
  | RequestPointerGrab (seat_id client_id : string) (mode : GrabMode.t)
                       (surface_id : option string) (now : Z)
  | ReleasePointerGrab (seat_id : string)
  | SetDisplayBounds (bounds : DisplayBounds.t)
  | AddEventListener (cb : Listener)
  | RemoveEventListener (cb : Listener).

(** What a method hands back to its caller. *)
Inductive Returned_value :=
  | RNone
  | RStr (s : string)
  | RBool (b : bool).

Definition of_unit (_ : unit) : Returned_value := RNone.
Definition of_opt (o : option string) : Returned_value :=
  match o with Some s => RStr s | None => RNone end.

Definition call (op : Op) : M Returned_value :=
  match op with
  | CreateSeat name random => RStr <$> create_seat name random
  | DestroySeat seat_id => of_unit <$> destroy_seat seat_id
  | SetSeatState seat_id state => of_unit <$> set_seat_state seat_id state
  | RegisterDevice device => of_unit <$> register_device device
  | UnregisterDevice device_id => of_unit <$> unregister_device device_id
  | AssignDevice device_id seat_id force =>
      of_unit <$> assign_device device_id seat_id force
  | UnassignDevice device_id => of_unit <$> unassign_device device_id
  | AutoAssignDevice device_id => RStr <$> auto_assign_device device_id
  | RoutePointerMotion device_id dx dy =>
      of_opt <$> route_pointer_motion device_id dx dy
  | RoutePointerButton device_id button pressed =>
      of_opt <$> route_pointer_button device_id button pressed
  | RouteKeyboardKey device_id key pressed =>
      of_opt <$> route_keyboard_key device_id key pressed
  | RequestPointerGrab seat_id client_id mode surface_id now =>
      RBool <$> request_pointer_grab seat_id client_id mode surface_id now
  | ReleasePointerGrab seat_id => of_unit <$> release_pointer_grab seat_id
  | SetDisplayBounds bounds => of_unit <$> set_display_bounds bounds
  | AddEventListener cb => of_unit <$> add_event_listener cb
  | RemoveEventListener cb => of_unit <$> remove_event_listener cb
  end.

(** The registry after a sequence of calls; a call that raises leaves the
    registry as the raise found it, and the caller goes on. *)
Definition run_ops (ops : list Op) (self : SeatManager) : SeatManager :=
  foldl (λ m op, run_state (call op m)) self ops.

(** The registries that a fresh [SeatManager] can be brought into. *)
Inductive reachable : SeatManager → Prop :=
  | reachable_init default_seat_name random :
      reachable (__init__ default_seat_name random)
  | reachable_call m op :
      reachable m → reachable (run_state (call op m)).

(* ===================================================================== *)
(** ** Well-formed registries *)
(* ===================================================================== *)

(** What the methods keep true of the seat dictionary: a seat is stored
    under its own identifier, no identifier is the empty string, and the
    default seat is there. *)
Record wf (m : SeatManager) : Prop := mk_wf {
  wf_seat_key : ∀ k s, _seats m !! k = Some s → Seat.id s = k;
  wf_key_nonempty : ∀ k s, _seats m !! k = Some s → k ≠ "";
  wf_default : is_Some (_seats m !! _default_seat_id m)
}.

(** Uniqueness of device membership: no identifier is in the pointer-device
    sets of two seats, nor in the keyboard-device sets of two seats. *)
Definition unique_membership (m : SeatManager) : Prop :=
  ∀ k1 k2 s1 s2 d,
    _seats m !! k1 = Some s1 → _seats m !! k2 = Some s2 →
    (d ∈ Seat.pointer_devices s1 → d ∈ Seat.pointer_devices s2 → k1 = k2) ∧
    (d ∈ Seat.keyboard_devices s1 → d ∈ Seat.keyboard_devices s2 → k1 = k2).

(** The bookkeeping that [assign_device] and [unassign_device] rely on: a
    device listed in a seat's sets is registered, and its [seat_id] names
    that seat. *)
Definition membership_recorded (m : SeatManager) : Prop :=
  ∀ k s d,
    _seats m !! k = Some s →
    d ∈ Seat.pointer_devices s ∨ d ∈ Seat.keyboard_devices s →
    ∃ device, _devices m !! d = Some device ∧
              InputDevice.seat_id device = Some k.

(** A call that does not register a device over an identifier that a seat
    still lists, unless the device handed in records that very seat. *)
Definition registers_cleanly (m : SeatManager) (op : Op) : Prop :=
  match op with
  | RegisterDevice device =>
      ∀ k s, _seats m !! k = Some s →
             InputDevice.id device ∈ Seat.pointer_devices s ∨
             InputDevice.id device ∈ Seat.keyboard_devices s →
             InputDevice.seat_id device = Some k
  | _ => True
  end.

(** The registries reached from a fresh one by such calls only. *)
Inductive cleanly_reachable : SeatManager → Prop :=
  | cleanly_init default_seat_name random :
      cleanly_reachable (__init__ default_seat_name random)
  | cleanly_call m op :
      cleanly_reachable m → registers_cleanly m op →
      cleanly_reachable (run_state (call op m)).

(** A check that implies [registers_cleanly] all along a sequence of calls:
    every [register_device] in it is handed an identifier that is not
    registered at that moment. *)
Fixpoint registers_new (ops : list Op) (self : SeatManager) : bool :=
  match ops with
  | [] => true
  | op :: rest =>
      match op with
      | RegisterDevice device =>
          bool_decide (_devices self !! InputDevice.id device = None)
      | _ => true
      end && registers_new rest (run_state (call op self))
  end.

(** What each call of a sequence hands back or raises. *)
Fixpoint results (ops : list Op) (self : SeatManager)
    : list (Error + Returned_value) :=
  match ops with
  | [] => []
  | op :: rest =>
      run_result (call op self) :: results rest (run_state (call op self))
  end.

(* ===================================================================== *)
(** ** simulator.py: the simulated compositor *)
(* ===================================================================== *)

(** The simulator drives the registry.  Its window dictionary is kept as an
    association list in insertion order, which [get_window_at] depends on;
    the clock read by [time.time()] for each [SimulationEvent] is an
    argument, like the clock of [Grab()]. *)
Module Sim.

Module SimulationEventType.
Inductive t :=
  | DEVICE_CONNECTED | DEVICE_DISCONNECTED | POINTER_MOVE | POINTER_BUTTON
  | KEYBOARD_KEY | GRAB_REQUEST | GRAB_RELEASE | WINDOW_FOCUS.
End SimulationEventType.

(** The values stored in a simulation event's [data] dictionary;
    [VSeatId] is an [Optional[str]]. *)
Inductive Value :=
  | VStr (s : string)
  | VNum (z : Z)
  | VBool (b : bool)
  | VSeatId (o : option string).

Module SimulationEvent.
Record t := mk {
  event_type : SimulationEventType.t;
  device_id : string;
  timestamp : Z;
  data : list (string * Value)
}.
End SimulationEvent.

Module VirtualDevice.
Record t := mk {
  id : string;
  name : string;
  device_type : DeviceType.t;
  capabilities : gset DeviceCapability.t;
  is_connected : bool;
  position : Position.t;
  buttons_pressed : gset Z;
  keys_pressed : gset Z
}.

Definition set_is_connected (v : bool) (d : t) : t :=
  mk (id d) (name d) (device_type d) (capabilities d) v (position d)
     (buttons_pressed d) (keys_pressed d).

Definition set_position (v : Position.t) (d : t) : t :=
  mk (id d) (name d) (device_type d) (capabilities d) (is_connected d) v
     (buttons_pressed d) (keys_pressed d).

Definition set_buttons_pressed (v : gset Z) (d : t) : t :=
  mk (id d) (name d) (device_type d) (capabilities d) (is_connected d)
     (position d) v (keys_pressed d).

Definition set_keys_pressed (v : gset Z) (d : t) : t :=
  mk (id d) (name d) (device_type d) (capabilities d) (is_connected d)
     (position d) (buttons_pressed d) v.

(** [VirtualDevice.to_input_device] *)
Definition to_input_device (self : t) : InputDevice.t :=
  InputDevice.mk (id self) (name self) (device_type self) (capabilities self)
                 0 0 "" None (is_connected self).
End VirtualDevice.

Module VirtualWindow.
Record t := mk {
  id : string;
  title : string;
  x : Z;
  y : Z;
  width : Z;
  height : Z;
  has_focus : bool;
  has_pointer_grab : bool;
  grab_mode : option GrabMode.t
}.

(** The two assignments [window.has_pointer_grab = g] and
    [window.grab_mode = mode]. *)
Definition set_grab (g : bool) (mode : option GrabMode.t) (w : t) : t :=
  mk (id w) (title w) (x w) (y w) (width w) (height w) (has_focus w) g mode.

(** [VirtualWindow.contains] *)
Definition contains (self : t) (pos : Position.t) : bool :=
  (x self <=? Position.x pos) && (Position.x pos <? x self + width self) &&
  (y self <=? Position.y pos) && (Position.y pos <? y self + height self).
End VirtualWindow.

(** A Python dictionary in insertion order. *)
Fixpoint dict_get {A} (key : string) (d : list (string * A)) : option A :=
  match d with
  | [] => None
  | (k, v) :: rest => if bool_decide (k = key) then Some v else dict_get key rest
  end.

(** [d[key] = v]: an existing key keeps its place, a new one goes last. *)
Fixpoint dict_set {A} (key : string) (v : A) (d : list (string * A))
    : list (string * A) :=
  match d with
  | [] => [(key, v)]
  | (k, w) :: rest =>
      if bool_decide (k = key) then (k, v) :: rest
      else (k, w) :: dict_set key v rest
  end.

(** [d.pop(key)] for a key that may be absent. *)
Fixpoint dict_pop {A} (key : string) (d : list (string * A))
    : list (string * A) :=
  match d with
  | [] => []
  | (k, w) :: rest =>
      if bool_decide (k = key) then rest else (k, w) :: dict_pop key rest
  end.

(** A simulation callback, with its identity. *)
Record Callback := mkCallback {
  callback_key : nat;
  on_event : SimulationEvent.t → Outcome
}.

Record SimulatedCompositor := mkCompositor {
  display : DisplayBounds.t;
  seat_manager : SeatManager;
  windows : list (string * VirtualWindow.t);
  devices : gmap string VirtualDevice.t;
  event_log : list SimulationEvent.t;
  _event_callbacks : list Callback
}.

Definition set_seat_manager (v : SeatManager) (c : SimulatedCompositor) :=
  mkCompositor (display c) v (windows c) (devices c) (event_log c)
               (_event_callbacks c).

Definition set_windows (v : list (string * VirtualWindow.t))
    (c : SimulatedCompositor) :=
  mkCompositor (display c) (seat_manager c) v (devices c) (event_log c)
               (_event_callbacks c).

Definition set_devices (v : gmap string VirtualDevice.t)
    (c : SimulatedCompositor) :=
  mkCompositor (display c) (seat_manager c) (windows c) v (event_log c)
               (_event_callbacks c).

Definition set_event_log (v : list SimulationEvent.t)
    (c : SimulatedCompositor) :=
  mkCompositor (display c) (seat_manager c) (windows c) (devices c) v
               (_event_callbacks c).

(** The outcome of a compositor method: the compositor as the call leaves
    it, the registry's emissions, the simulation events handed to the
    callbacks with the calls made, and the value returned or the registry
    exception that went through. *)
Record SimRun (A : Type) := mkSimRun {
  sim_state : SimulatedCompositor;
  sim_trace : list Emission;
  sim_notified : list (SimulationEvent.t * list Call);
  sim_result : Error + A
}.
Arguments mkSimRun {A} _ _ _ _.
Arguments sim_state {A} _.
Arguments sim_trace {A} _.
Arguments sim_notified {A} _.
Arguments sim_result {A} _.

(** [SimulatedCompositor.__init__]: the display, a fresh registry, and the
    registry's bounds set to the display. *)
Definition __init__ (width height : Z) (random : N) : SimulatedCompositor :=
  let display := DisplayBounds.mk 0 0 width height "default" in
  let seat_manager := __init__ "seat0" random in
  let seat_manager := run_state (set_display_bounds display seat_manager) in
  mkCompositor display seat_manager [] ∅ [] [].

(** The loop of [SimulatedCompositor._emit_event] over the callbacks. *)
Fixpoint call_callbacks (callbacks : list Callback) (event : SimulationEvent.t)
    : list Call :=
  match callbacks with
  | [] => []
  | cb :: rest =>
      match on_event cb event with
      | Returned => mkCall (callback_key cb) None :: call_callbacks rest event
      | Raised e =>
          mkCall (callback_key cb) (Some ("Event callback error: " +:+ e))
          :: call_callbacks rest event
      end
  end.

(** [SimulatedCompositor._emit_event]: the event is logged, then every
    callback is called. *)
Definition _emit_event (event : SimulationEvent.t) (c : SimulatedCompositor)
    : SimulatedCompositor * (SimulationEvent.t * list Call) :=
  (set_event_log (event_log c ++ [event]) c,
   (event, call_callbacks (_event_callbacks c) event)).

(** [SimulatedCompositor.create_window] *)
Definition create_window (window_id title : string) (x y width height : Z)
    (c : SimulatedCompositor) : SimulatedCompositor * VirtualWindow.t :=
  let window := VirtualWindow.mk window_id title x y width height
                                 false false None in
  (set_windows (dict_set window_id window (windows c)) c, window).

(** [SimulatedCompositor.destroy_window] *)
Definition destroy_window (window_id : string) (c : SimulatedCompositor)
    : SimulatedCompositor :=
  match dict_get window_id (windows c) with
  | Some _ => set_windows (dict_pop window_id (windows c)) c
  | None => c
  end.

(** The loop of [get_window_at]: the first window of the list that
    contains the position. *)
Fixpoint first_containing (pos : Position.t) (ws : list VirtualWindow.t)
    : option VirtualWindow.t :=
  match ws with
  | [] => None
  | w :: rest =>
      if VirtualWindow.contains w pos then Some w else first_containing pos rest
  end.

(** [SimulatedCompositor.get_window_at]:
    [for window in reversed(list(self.windows.values()))]. *)
Definition get_window_at (pos : Position.t) (c : SimulatedCompositor)
    : option VirtualWindow.t :=
  first_containing pos (reverse ((windows c).*2)).

(** [SimulatedCompositor.disconnect_device] *)
Definition disconnect_device (device_id : string) (now : Z)
    (c : SimulatedCompositor) : SimRun unit :=
  match devices c !! device_id with
  | None => mkSimRun c [] [] (inr ())
  | Some device =>
      let c := set_devices
                 (alter (VirtualDevice.set_is_connected false) device_id
                        (devices c)) c in
      let r := unregister_device device_id (seat_manager c) in
      let c := set_seat_manager (run_state r) c in
      match run_result r with
      | inl e => mkSimRun c (run_trace r) [] (inl e)
      | inr _ =>
          let '(c, n) :=
            _emit_event (SimulationEvent.mk
                           SimulationEventType.DEVICE_DISCONNECTED
                           device_id now []) c in
          mkSimRun c (run_trace r) [n] (inr ())
      end
  end.


(** [SimulatedCompositor.click_button] *)
Definition click_button (device_id : string) (button : Z) (pressed : bool)
    (now : Z) (c : SimulatedCompositor) : SimRun (option string) :=
  match devices c !! device_id with
  | None => mkSimRun c [] [] (inr None)
  | Some device =>
      let buttons :=
        if pressed then {[button]} ∪ VirtualDevice.buttons_pressed device
        else VirtualDevice.buttons_pressed device ∖ {[button]} in
      let c := set_devices
                 (alter (VirtualDevice.set_buttons_pressed buttons) device_id
                        (devices c)) c in
      let r := route_pointer_button device_id button pressed (seat_manager c) in
      let c := set_seat_manager (run_state r) c in
      match run_result r with
      | inl e => mkSimRun c (run_trace r) [] (inl e)
      | inr seat_id =>
          let '(c, n) :=
            _emit_event (SimulationEvent.mk SimulationEventType.POINTER_BUTTON
                           device_id now
                           [("button", VNum button); ("pressed", VBool pressed);
                            ("seat_id", VSeatId seat_id)]) c in
          mkSimRun c (run_trace r) [n] (inr seat_id)
      end
  end.

(** [SimulatedCompositor.press_key] *)
Definition press_key (device_id : string) (key : Z) (pressed : bool)
    (now : Z) (c : SimulatedCompositor) : SimRun (option string) :=
  match devices c !! device_id with
  | None => mkSimRun c [] [] (inr None)
  | Some device =>
      let keys :=
        if pressed then {[key]} ∪ VirtualDevice.keys_pressed device
        else VirtualDevice.keys_pressed device ∖ {[key]} in
      let c := set_devices
                 (alter (VirtualDevice.set_keys_pressed keys) device_id
                        (devices c)) c in
      let r := route_keyboard_key device_id key pressed (seat_manager c) in
      let c := set_seat_manager (run_state r) c in
      match run_result r with
      | inl e => mkSimRun c (run_trace r) [] (inl e)
      | inr seat_id =>
          let '(c, n) :=
            _emit_event (SimulationEvent.mk SimulationEventType.KEYBOARD_KEY
                           device_id now
                           [("key", VNum key); ("pressed", VBool pressed);
                            ("seat_id", VSeatId seat_id)]) c in
          mkSimRun c (run_trace r) [n] (inr seat_id)
      end
  end.

(** [mode.name] *)
Definition grab_mode_name (mode : GrabMode.t) : string :=
  match mode with
  | GrabMode.NONE => "NONE"
  | GrabMode.POINTER_LOCK => "POINTER_LOCK"
  | GrabMode.POINTER_CONFINE => "POINTER_CONFINE"
  | GrabMode.KEYBOARD => "KEYBOARD"
  end.

(** [SimulatedCompositor.request_grab]; [grab_now] is the clock of the
    registry's [Grab()], [now] that of the simulation event. *)
Definition request_grab (window_id seat_id : string) (mode : GrabMode.t)
    (grab_now now : Z) (c : SimulatedCompositor) : SimRun bool :=
  match dict_get window_id (windows c) with
  | None => mkSimRun c [] [] (inr false)
  | Some window =>
      let r := request_pointer_grab seat_id window_id mode None grab_now
                                    (seat_manager c) in
      let c := set_seat_manager (run_state r) c in
      match run_result r with
      | inl e => mkSimRun c (run_trace r) [] (inl e)
      | inr granted =>
          let c :=
            if granted
            then set_windows
                   (dict_set window_id
                      (VirtualWindow.set_grab true (Some mode) window)
                      (windows c)) c
            else c in
          let '(c, n) :=
            _emit_event (SimulationEvent.mk SimulationEventType.GRAB_REQUEST
                           "" now
                           [("window_id", VStr window_id);
                            ("seat_id", VStr seat_id);
                            ("mode", VStr (grab_mode_name mode));
                            ("granted", VBool granted)]) c in
          mkSimRun c (run_trace r) [n] (inr granted)
      end
  end.

(** [SimulatedCompositor.release_grab] *)
Definition release_grab (window_id seat_id : string) (now : Z)
    (c : SimulatedCompositor) : SimRun unit :=
  let c :=
    match dict_get window_id (windows c) with
    | Some window =>
        set_windows
          (dict_set window_id (VirtualWindow.set_grab false None window)
                    (windows c)) c
    | None => c
    end in
  let r := release_pointer_grab seat_id (seat_manager c) in
  let c := set_seat_manager (run_state r) c in
  match run_result r with
  | inl e => mkSimRun c (run_trace r) [] (inl e)
  | inr _ =>
      let '(c, n) :=
        _emit_event (SimulationEvent.mk SimulationEventType.GRAB_RELEASE
                       "" now
                       [("window_id", VStr window_id);
                        ("seat_id", VStr seat_id)]) c in
      mkSimRun c (run_trace r) [n] (inr ())
  end.

(** What a scenario step does: it returns a truth value or raises. *)
Inductive StepOutcome := StepReturned (b : bool) | StepRaised (exc : string).

(** A step of a scenario, a callable on the compositor that may change it. *)
Definition Step : Type :=
  SimulatedCompositor → SimulatedCompositor * StepOutcome.

(** The dictionary [result] of [run_scenario]. *)
Record ScenarioResult := mkScenarioResult {
  scenario_name : string;
  description : string;
  steps_passed : nat;
  steps_total : nat;
  passed : bool;
  errors : list string
}.

Record ScenarioRunner := mkScenarioRunner {
  compositor : SimulatedCompositor;
  results : list ScenarioResult
}.

(** The loop of [run_scenario] from step index [i]: the compositor after
    the steps that ran, the number of steps that returned true, and the
    errors. *)
Fixpoint run_steps (i : nat) (steps : list Step) (c : SimulatedCompositor)
    : SimulatedCompositor * nat * list string :=
  match steps with
  | [] => (c, O, [])
  | step :: rest =>
      match step c with
      | (c', StepReturned true) =>
          let '(c'', n, errs) := run_steps (S i) rest c' in (c'', S n, errs)
      | (c', StepReturned false) =>
          (c', O, ["Step " +:+ pretty (S i) +:+ " returned False"])
      | (c', StepRaised e) =>
          (c', O, ["Step " +:+ pretty (S i) +:+ " raised: " +:+ e])
      end
  end.

(** [ScenarioRunner.run_scenario] *)
Definition run_scenario (name : string) (steps : list Step)
    (description : string) (self : ScenarioRunner) : ScenarioRunner * bool :=
  let '(c, n, errs) := run_steps 0 steps (compositor self) in
  let result := mkScenarioResult name description n (length steps)
                                 (bool_decide (n = length steps)) errs in
  (mkScenarioRunner c (results self ++ [result]), passed result).

End Sim.

(* ===================================================================== *)
(** ** Fixtures: the registries of the unit tests *)
(* ===================================================================== *)

(** The identifiers that the first two seats get when the random source
    yields 0 and then 1. *)
Definition seat0_id : string := uuid4 0.
Definition aux_id : string := uuid4 1.

(** [InputDevice(id=..., name="Test Mouse", device_type=DeviceType.POINTER,
    capabilities={DeviceCapability.POINTER})] *)
Definition mouse (id : string) : InputDevice.t :=
  InputDevice.mk id "Test Mouse" DeviceType.POINTER {[DeviceCapability.POINTER]}
                 0 0 "" None true.

(** [SeatManager()] *)
Definition fresh : SeatManager := __init__ "seat0" 0.

(** The [setUp] of the routing and grab tests: a second seat "aux", two mice,
    one assigned to each seat. *)
Definition two_seats : SeatManager :=
  run_ops [CreateSeat "aux" 1;
           RegisterDevice (mouse "mouse1"); RegisterDevice (mouse "mouse2");
           AssignDevice "mouse1" seat0_id false;
           AssignDevice "mouse2" aux_id false] fresh.

(** [two_seats] after the game window took a pointer-lock grab on the default
    seat. *)
Definition two_seats_grabbed : SeatManager :=
  run_ops [RequestPointerGrab seat0_id "game-window" GrabMode.POINTER_LOCK None 7]
          two_seats.

(** The calls that hand a mouse to the default seat, register the same
    identifier a second time, and assign it to seat "aux". *)
Definition reregister_ops : list Op :=
  [CreateSeat "aux" 1;
   RegisterDevice (mouse "mouse1");
   AssignDevice "mouse1" seat0_id false;
   RegisterDevice (mouse "mouse1");
   AssignDevice "mouse1" aux_id false].

Definition reregistered : SeatManager := run_ops reregister_ops fresh.

(** A touch screen: no pointer and no keyboard capability. *)
Definition touchscreen (id : string) : InputDevice.t :=
  InputDevice.mk id "Test Touchscreen" DeviceType.TOUCH {[DeviceCapability.TOUCH]}
                 0 0 "" None true.

(** [InputDevice(id=..., name="Test Keyboard",
    device_type=DeviceType.KEYBOARD, capabilities={DeviceCapability.KEYBOARD})] *)
Definition keyboard (id : string) : InputDevice.t :=
  InputDevice.mk id "Test Keyboard" DeviceType.KEYBOARD
                 {[DeviceCapability.KEYBOARD]} 0 0 "" None true.

(** [two_seats] with a touch screen on seat "aux" and an unassigned
    keyboard. *)
Definition two_seats_touch : SeatManager :=
  run_ops [RegisterDevice (touchscreen "touch1");
           AssignDevice "touch1" aux_id false;
           RegisterDevice (keyboard "keyboard1")] two_seats.



(** The seat stored under a key, for fixtures where it is known to exist. *)
Definition the_seat (m : SeatManager) (seat_id : string) : Seat.t :=
  default (Seat.new 0 "") (_seats m !! seat_id).

(** The device stored under a key, for fixtures where it is known to exist. *)
Definition the_device (m : SeatManager) (device_id : string) : InputDevice.t :=
  default (mouse "") (_devices m !! device_id).

(** simulator.py's [create_test_devices]: a virtual mouse. *)
Definition virtual_mouse (id name : string) : Sim.VirtualDevice.t :=
  Sim.VirtualDevice.mk id name DeviceType.POINTER {[DeviceCapability.POINTER]}
                       true Position.default ∅ ∅.

(** The registry of [scenario_grab_isolation] after its setup step: a seat
    "aux", "mouse1" connected to "seat0" and "mouse2" to "aux", with the
    registry calls of [connect_device] written out ([register_device] of the
    converted device, then [assign_device] to the seat of that name). *)
Definition sim_registry : SeatManager :=
  run_ops [CreateSeat "aux" 1;
           RegisterDevice (Sim.VirtualDevice.to_input_device
                             (virtual_mouse "mouse1" "Virtual Mouse 1"));
           AssignDevice "mouse1" seat0_id false;
           RegisterDevice (Sim.VirtualDevice.to_input_device
                             (virtual_mouse "mouse2" "Virtual Mouse 2"));
           AssignDevice "mouse2" aux_id false]
          (Sim.seat_manager (Sim.__init__ 1920 1080 0)).

(** The compositor of that scenario after its setup step, the window "game"
    created. *)
Definition sim_two_seats : Sim.SimulatedCompositor :=
  (Sim.create_window "game" "Fullscreen Game" 0 0 1920 1080
     (Sim.mkCompositor
        (Sim.display (Sim.__init__ 1920 1080 0))
        sim_registry
        []
        (<["mouse2" := virtual_mouse "mouse2" "Virtual Mouse 2"]>
           (<["mouse1" := virtual_mouse "mouse1" "Virtual Mouse 1"]> ∅))
        [Sim.SimulationEvent.mk Sim.SimulationEventType.DEVICE_CONNECTED
           "mouse1" 1 [("seat", Sim.VStr "seat0")];
         Sim.SimulationEvent.mk Sim.SimulationEventType.DEVICE_CONNECTED
           "mouse2" 2 [("seat", Sim.VStr "aux")]]
        [])).1.

(** [sim_two_seats] with a second window "editor" over the left half, and
    the game holding a pointer lock on the default seat. *)
Definition sim_game_grabbed : Sim.SimulatedCompositor :=
  Sim.sim_state
    (Sim.request_grab "game" seat0_id GrabMode.POINTER_LOCK 7 8
       (Sim.create_window "editor" "Editor" 0 0 960 1080 sim_two_seats).1).

(** The text of an exception, [str(e)]. *)
Definition exc_text (e : Error) : string :=
  match e with
  | SeatManagerError msg | SeatNotFoundError msg
  | DeviceNotFoundError msg | DeviceAlreadyAssignedError msg => msg
  end.

(** [step2_disconnect] of [scenario_device_hotplug], for a given device:
    [comp.disconnect_device(device_id)], then
    [return not comp.devices.get(device_id, VirtualDevice(...)).is_connected],
    where the default device is connected. *)
Definition step2_disconnect (device_id : string) (now : Z) : Sim.Step :=
  λ comp,
    let r := Sim.disconnect_device device_id now comp in
    match Sim.sim_result r with
    | inl e => (Sim.sim_state r, Sim.StepRaised (exc_text e))
    | inr _ =>
        (Sim.sim_state r,
         Sim.StepReturned
           (negb (default true
                    (Sim.VirtualDevice.is_connected
                       <$> Sim.devices (Sim.sim_state r) !! device_id))))
    end.

(* ===================================================================== *)
(** ** Unfolding the computations *)
(* ===================================================================== *)

Ltac run_unfold :=
  unfold call, create_seat, destroy_seat, register_device, unregister_device,
    auto_assign_device, assign_device, unassign_device,
    route_pointer_motion, route_pointer_button, route_keyboard_key,
    set_display_bounds, add_event_listener, remove_event_listener,
    request_pointer_grab, release_pointer_grab, set_seat_state,
    get_seat, get_device, modify_seat, modify_device, _emit_event, modify,
    get, raise, fmap, M_fmap, mbind, M_bind, mret, M_ret in *.

(** Reduction of the registry's projections and setters only: the maps stay
    folded. *)
Ltac run_cbn :=
  cbn [run_state run_trace run_result _seats _devices _event_listeners
       _display_bounds _default_seat_id set_seats set_devices
       set_event_listeners set_bounds set_default_seat_id negb andb app
       of_unit of_opt] in *.

(** Case analysis on an innermost test of the method under execution. *)
Ltac run_case :=
  match goal with
  | |- context [match ?x with _ => _ end] =>
      lazymatch x with
      | context [match _ with _ => _ end] => fail
      | _ => destruct x eqn:?
      end
  end.

Ltac run_cases :=
  run_unfold; run_cbn; repeat (run_case; simplify_eq; run_cbn).

Ltac seat_cbn :=
  cbn [Seat.id Seat.name Seat.state Seat.cursor Seat.focus Seat.pointer_grab
       Seat.keyboard_grab Seat.pointer_devices Seat.keyboard_devices
       Seat.new Seat.set_state Seat.set_cursor Seat.set_pointer_grab_field
       Seat.set_pointer_devices Seat.set_keyboard_devices
       Seat.add_pointer_device Seat.add_keyboard_device
       Seat.remove_pointer_device Seat.remove_keyboard_device
       Seat.set_pointer_grab Seat.release_pointer_grab
       InputDevice.id InputDevice.seat_id InputDevice.capabilities
       InputDevice.name InputDevice.set_seat_id
       Cursor.position Cursor.set_position Cursor.move_by
       Position.x Position.y Position.move Position.clamp] in *.

(** Reading a lookup in an updated dictionary back to the dictionary
    before the update. *)
Ltac seats_inv :=
  repeat match goal with
  | H : alter _ _ _ !! _ = Some _ |- _ =>
      apply lookup_alter_Some in H as [[? (? & H & ?)]|[? H]]; subst
  | H : delete _ _ !! _ = Some _ |- _ =>
      apply lookup_delete_Some in H as [? H]
  | H : <[_:=_]> _ !! _ = Some _ |- _ =>
      apply lookup_insert_Some in H as [[? ?]|[? H]]; subst
  end.

(** Rewriting a lookup in an updated dictionary, once the keys are known
    to be equal or different. *)
Ltac devices_lookup :=
  repeat first
    [ rewrite lookup_alter_eq | rewrite lookup_delete_eq
    | rewrite lookup_insert_eq
    | rewrite lookup_alter_ne by done | rewrite lookup_delete_ne by done
    | rewrite lookup_insert_ne by done ].

(* ===================================================================== *)
(** ** Seat identifiers and the routing guard *)
(* ===================================================================== *)

Lemma uuid4_nonempty random : uuid4 random ≠ "".
Proof.
  unfold uuid4, uuid_str. cbv zeta.
  destruct (substring 0 8 (hex_digits 32 (uuid4_int random) "")); discriminate.
Qed.

Lemma truthy_Some s : truthy (Some s) = true ↔ s ≠ "".
Proof.
  unfold truthy. case_bool_decide; cbn; split; intros; done.
Qed.

(** The guard of the [route_*] methods lets an event through exactly for a
    registered device whose [seat_id] is a non-empty key of an active seat. *)
Lemma routed_seat_Some m device_id key seat :
  routed_seat m device_id = Some (key, seat) ↔
  ∃ device, _devices m !! device_id = Some device ∧
            InputDevice.seat_id device = Some key ∧ key ≠ "" ∧
            _seats m !! key = Some seat ∧ Seat.state seat = SeatState.ACTIVE.
Proof.
  unfold routed_seat. split.
  - destruct (_devices m !! device_id) as [device|]; [|done].
    destruct (InputDevice.seat_id device) as [sid|] eqn:Hsid; [|done].
    destruct (truthy (Some sid)) eqn:Ht; cbn; [|done].
    apply truthy_Some in Ht.
    destruct (_seats m !! sid) as [st|] eqn:Hs; [|done].
    case_bool_decide; [|done]. intros [= <- <-]. by exists device.
  - intros (device & -> & Hsid & Hne & Hs & Hact). rewrite Hsid.
    apply truthy_Some in Hne. rewrite Hne. cbn. rewrite Hs.
    by rewrite bool_decide_eq_true_2.
Qed.

Ltac routed_inv :=
  repeat match goal with
  | H : routed_seat _ _ = Some _ |- _ =>
      apply routed_seat_Some in H as (? & ? & ? & ? & ? & ?)
  end.

Lemma wf_init default_seat_name random : wf (__init__ default_seat_name random).
Proof.
  unfold __init__. run_cases. split; run_cbn.
  - intros k s Hk. seats_inv; [done|]. by rewrite lookup_empty in Hk.
  - intros k s Hk. seats_inv; [apply uuid4_nonempty|].
    by rewrite lookup_empty in Hk.
  - rewrite lookup_insert_eq. by eexists.
Qed.

Lemma call_default_seat_id m op :
  _default_seat_id (run_state (call op m)) = _default_seat_id m.
Proof. destruct op; run_cases; done. Qed.

Lemma wf_call m op : wf m → wf (run_state (call op m)).
Proof.
  intros [Hkey Hne Hdef]. split.
  - destruct op; run_cases; intros ? ? Hk; run_cbn; routed_inv; seats_inv;
      seat_cbn; try done; by eapply Hkey.
  - destruct op; run_cases; intros ? ? Hk; run_cbn; seats_inv;
      try apply uuid4_nonempty; by eapply Hne.
  - rewrite call_default_seat_id.
    destruct op; run_cases; try done;
      rewrite ?lookup_alter, ?lookup_insert; repeat case_decide; subst;
      rewrite ?fmap_is_Some, ?lookup_delete_ne by done; done.
Qed.

Lemma reachable_wf m : reachable m → wf m.
Proof. induction 1; [apply wf_init | by apply wf_call]. Qed.

(* ===================================================================== *)
(** ** Pointer grabs *)
(* ===================================================================== *)

(** C3. On a seat whose pointer is already grabbed, [request_pointer_grab]
    returns [False], leaves the registry as it was (so the stored grab keeps
    its client, mode and surface) and emits nothing.  On a seat whose pointer
    is not grabbed it stores a new grab with the given mode, client and
    surface, emits exactly one [GRAB_STARTED] event and returns [True]. *)
Theorem request_pointer_grab_denied_or_granted
    m seat_id seat client_id mode surface_id now :
  _seats m !! seat_id = Some seat →
  let r := request_pointer_grab seat_id client_id mode surface_id now m in
  (Seat.is_pointer_grabbed seat = true →
     run_result r = inr false ∧ run_state r = m ∧ run_trace r = []) ∧
  (Seat.is_pointer_grabbed seat = false →
     run_result r = inr true ∧
     (∃ seat', _seats (run_state r) !! seat_id = Some seat' ∧
               Seat.pointer_grab seat' =
                 Some (Grab.mk mode client_id surface_id now)) ∧
     emitted <$> run_trace r =
       [Event.mk EventType.GRAB_STARTED (Some seat_id) None
                 [("type", VStr "pointer"); ("mode", VGrabMode mode);
                  ("client_id", VStr client_id)]]).
Proof.
  intros Hseat r. subst r. split; intros Hgrab.
  - run_unfold. cbn. rewrite Hseat. cbn. rewrite Hgrab. by cbn.
  - run_unfold. cbn. rewrite Hseat. cbn. rewrite Hgrab. cbn.
    split; [done|]. split; [|done].
    eexists. rewrite lookup_alter_eq, Hseat. cbn. by split.
Qed.

Lemma request_pointer_grab_denied_or_granted_witness :
  (let r := request_pointer_grab seat0_id "other" GrabMode.POINTER_LOCK None 9
                                 two_seats_grabbed in
   run_result r = inr false ∧ run_state r = two_seats_grabbed ∧ run_trace r = []) ∧
  (let r := request_pointer_grab seat0_id "game-window" GrabMode.POINTER_LOCK None 7
                                 two_seats in
   run_result r = inr true).
Proof.
  split.
  - apply (request_pointer_grab_denied_or_granted two_seats_grabbed seat0_id
             (the_seat two_seats_grabbed seat0_id) "other"
             GrabMode.POINTER_LOCK None 9); by vm_compute.
  - apply (request_pointer_grab_denied_or_granted two_seats seat0_id
             (the_seat two_seats seat0_id) "game-window"
             GrabMode.POINTER_LOCK None 7); by vm_compute.
Defined.

(** C10. On a seat without an active pointer grab, a request with
    [mode = GrabMode.NONE] returns [True], stores a grab whose [is_active] is
    false and emits [GRAB_STARTED]; the seat's [is_pointer_grabbed] is still
    false afterwards, so a further request on that seat is granted again, and
    [release_pointer_grab] returns without touching the registry or emitting
    anything: the inactive grab stays stored. *)
Theorem request_pointer_grab_mode_none
    m seat_id seat client_id surface_id now :
  _seats m !! seat_id = Some seat →
  Seat.is_pointer_grabbed seat = false →
  let r := request_pointer_grab seat_id client_id GrabMode.NONE surface_id now m in
  let m1 := run_state r in
  run_result r = inr true ∧
  (∃ seat1 grab,
     _seats m1 !! seat_id = Some seat1 ∧
     Seat.pointer_grab seat1 = Some grab ∧
     grab = Grab.mk GrabMode.NONE client_id surface_id now ∧
     Grab.is_active grab = false ∧
     Seat.is_pointer_grabbed seat1 = false) ∧
  (∃ payload, emitted <$> run_trace r =
     [Event.mk EventType.GRAB_STARTED (Some seat_id) None payload]) ∧
  (∀ client_id' mode' surface_id' now',
     run_result (request_pointer_grab seat_id client_id' mode' surface_id' now' m1)
     = inr true) ∧
  release_pointer_grab seat_id m1 = mkRun m1 [] (inr ()).
Proof.
  intros Hseat Hgrab r m1. subst m1 r.
  assert (Hrun : request_pointer_grab seat_id client_id GrabMode.NONE surface_id now m
          = mkRun (set_seats (alter (Seat.set_pointer_grab client_id GrabMode.NONE
                                       surface_id now) seat_id (_seats m)) m)
              [mkEmission
                 (Event.mk EventType.GRAB_STARTED (Some seat_id) None
                    [("type", VStr "pointer"); ("mode", VGrabMode GrabMode.NONE);
                     ("client_id", VStr client_id)])
                 (call_listeners (_event_listeners m)
                    (Event.mk EventType.GRAB_STARTED (Some seat_id) None
                       [("type", VStr "pointer"); ("mode", VGrabMode GrabMode.NONE);
                        ("client_id", VStr client_id)]))]
              (inr true)).
  { run_unfold. cbn. rewrite Hseat. cbn. rewrite Hgrab. by cbn. }
  rewrite Hrun. cbn.
  assert (Hlook : alter (Seat.set_pointer_grab client_id GrabMode.NONE surface_id now)
                    seat_id (_seats m) !! seat_id
                  = Some (Seat.set_pointer_grab client_id GrabMode.NONE surface_id
                            now seat)).
  { by rewrite lookup_alter_eq, Hseat. }
  split; [done|]. split.
  { do 2 eexists. split; [exact Hlook|]. by cbn. }
  split; [by eexists|]. split.
  - intros client_id' mode' surface_id' now'.
    run_unfold. cbn. rewrite Hlook. by cbn.
  - run_unfold. cbn. rewrite Hlook. by cbn.
Qed.

Lemma request_pointer_grab_mode_none_witness :
  let r := request_pointer_grab aux_id "game-window" GrabMode.NONE None 7 two_seats in
  run_result r = inr true ∧
  release_pointer_grab aux_id (run_state r) = mkRun (run_state r) [] (inr ()).
Proof.
  pose proof (request_pointer_grab_mode_none two_seats aux_id
                (the_seat two_seats aux_id) "game-window" None 7) as H.
  cbv zeta in H. destruct H as (H1 & _ & _ & _ & H5); [by vm_compute..|].
  split; [exact H1 | exact H5].
Defined.

(** C2. A call [request_pointer_grab(A, ...)], granted or denied, leaves
    every other seat [B ≠ A] of the registry exactly as it was: the same
    [is_pointer_grabbed], the same cursor position, the same pointer-device
    and keyboard-device sets. *)
Theorem request_pointer_grab_frame
    m seat_A seat_B sA sB client_id mode surface_id now :
  _seats m !! seat_A = Some sA →
  _seats m !! seat_B = Some sB →
  seat_B ≠ seat_A →
  let r := request_pointer_grab seat_A client_id mode surface_id now m in
  ∃ sB', _seats (run_state r) !! seat_B = Some sB' ∧
         Seat.is_pointer_grabbed sB' = Seat.is_pointer_grabbed sB ∧
         Cursor.position (Seat.cursor sB') = Cursor.position (Seat.cursor sB) ∧
         Seat.pointer_devices sB' = Seat.pointer_devices sB ∧
         Seat.keyboard_devices sB' = Seat.keyboard_devices sB ∧
         sB' = sB.
Proof.
  intros HA HB Hne r. subst r. exists sB.
  split; [|done].
  run_unfold. cbn. rewrite HA. cbn.
  destruct (Seat.is_pointer_grabbed sA); cbn; [done|].
  by rewrite lookup_alter_ne.
Qed.

Lemma request_pointer_grab_frame_witness :
  ∃ sB', _seats (run_state (request_pointer_grab seat0_id "game-window"
                              GrabMode.POINTER_LOCK None 7 two_seats)) !! aux_id
         = Some sB' ∧
         Seat.is_pointer_grabbed sB' = false ∧
         sB' = the_seat two_seats aux_id.
Proof.
  destruct (request_pointer_grab_frame two_seats seat0_id aux_id
              (the_seat two_seats seat0_id) (the_seat two_seats aux_id)
              "game-window" GrabMode.POINTER_LOCK None 7)
    as (sB' & H1 & H2 & _ & _ & _ & H6); [by vm_compute..|].
  exists sB'. split; [exact H1|]. split; [|exact H6].
  rewrite H2. by vm_compute.
Defined.

(* ===================================================================== *)
(** ** Unassigning a device *)
(* ===================================================================== *)

(** C8. [unassign_device] on a registered device that has no seat
    assignment returns normally, leaves the registry as it was and emits
    nothing; this is in particular what the second of two consecutive calls
    does.  The call raises exactly when the identifier is unknown, and then
    it raises [DeviceNotFoundError]. *)
Theorem unassign_device_idempotent m device_id :
  let r := unassign_device device_id m in
  (∀ device, _devices m !! device_id = Some device →
             InputDevice.seat_id device = None →
             r = mkRun m [] (inr ())) ∧
  (∀ device, _devices m !! device_id = Some device →
             run_result r = inr () ∧
             unassign_device device_id (run_state r)
             = mkRun (run_state r) [] (inr ())) ∧
  ((∃ e, run_result r = inl e) ↔ _devices m !! device_id = None) ∧
  (∀ e, run_result r = inl e →
        e = DeviceNotFoundError ("Device " +:+ device_id +:+ " not found")).
Proof.
  intros r. subst r. unfold unassign_device. run_unfold. cbn.
  destruct (_devices m !! device_id) as [device|] eqn:Hdev; cbn.
  - destruct (InputDevice.seat_id device) as [sid|] eqn:Hsid; cbn;
      [case_bool_decide as Hempty; cbn|];
      rewrite ?lookup_alter_eq, ?Hdev; cbn; rewrite ?Hsid; cbn;
      rewrite ?bool_decide_eq_true_2 by done; cbn;
      repeat split; try done;
      try (intros [e He]; done); intros; by simplify_eq.
  - repeat split; try done; [by eexists|].
    intros e He. by simplify_eq.
Qed.

Lemma unassign_device_idempotent_witness :
  let r := unassign_device "mouse1" two_seats in
  run_result r = inr () ∧
  unassign_device "mouse1" (run_state r) = mkRun (run_state r) [] (inr ()).
Proof.
  apply (proj1 (proj2 (unassign_device_idempotent two_seats "mouse1"))
           (the_device two_seats "mouse1")).
  by vm_compute.
Defined.

(* ===================================================================== *)
(** ** Reachable registries *)
(* ===================================================================== *)

Lemma run_ops_reachable ops m : reachable m → reachable (run_ops ops m).
Proof.
  revert m. induction ops as [|op ops IH]; intros m Hm; [done|].
  apply IH. by constructor.
Qed.

Lemma run_ops_default_seat_id ops m :
  _default_seat_id (run_ops ops m) = _default_seat_id m.
Proof.
  revert m. induction ops as [|op ops IH]; intros m; [done|].
  cbn. unfold run_ops in IH. by rewrite IH, call_default_seat_id.
Qed.

Lemma init_default_seat_id default_seat_name random :
  _default_seat_id (__init__ default_seat_name random) = uuid4 random.
Proof. unfold __init__. by run_cases. Qed.

(* ===================================================================== *)
(** ** Destroying seats *)
(* ===================================================================== *)

(** C6. Whatever calls were made on a registry since its construction,
    [destroy_seat] on the identifier of the seat created by the constructor
    raises [SeatManagerError] ("Cannot destroy the default seat"), the
    registry's invariant-violation error, and leaves the registry as it was;
    on an identifier that is not a key of the seat dictionary it raises
    [SeatNotFoundError], again without touching the registry. *)
Theorem destroy_seat_default_protected default_seat_name random ops :
  let m := run_ops ops (__init__ default_seat_name random) in
  _default_seat_id m = uuid4 random ∧
  destroy_seat (uuid4 random) m
  = mkRun m [] (inl (SeatManagerError "Cannot destroy the default seat")) ∧
  (∀ seat_id, _seats m !! seat_id = None →
     destroy_seat seat_id m
     = mkRun m [] (inl (SeatNotFoundError ("Seat " +:+ seat_id +:+ " not found")))).
Proof.
  intros m.
  assert (Hid : _default_seat_id m = uuid4 random).
  { subst m. by rewrite run_ops_default_seat_id, init_default_seat_id. }
  assert (Hwf : wf m).
  { apply reachable_wf, run_ops_reachable. constructor. }
  split; [done|]. split.
  - destruct (wf_default m Hwf) as [seat Hseat]. rewrite Hid in Hseat.
    unfold destroy_seat. run_unfold. run_cbn. rewrite Hseat, Hid.
    by rewrite bool_decide_eq_true_2.
  - intros seat_id Hnone. unfold destroy_seat. run_unfold. run_cbn.
    by rewrite Hnone.
Qed.

Lemma destroy_seat_default_protected_witness :
  destroy_seat "no-such-seat" two_seats
  = mkRun two_seats []
      (inl (SeatNotFoundError ("Seat " +:+ "no-such-seat" +:+ " not found"))).
Proof.
  apply (proj2 (proj2 (destroy_seat_default_protected "seat0" 0
           [CreateSeat "aux" 1;
            RegisterDevice (mouse "mouse1"); RegisterDevice (mouse "mouse2");
            AssignDevice "mouse1" seat0_id false;
            AssignDevice "mouse2" aux_id false]))).
  by vm_compute.
Defined.

(* ===================================================================== *)
(** ** Routing pointer motion *)
(* ===================================================================== *)







(** Why the repeated motion needs a cursor that started inside the display:
    [set_display_bounds] does not re-clamp.  With the cursor at (1900, 1000)
    and the display then shrunk to 100x100, the motion (-10, -10) is out of
    range in both coordinates and lands at (99, 99); repeated, it is in range
    and moves the cursor to (89, 89). *)
Example route_pointer_motion_after_shrink :
  let m1 := run_ops [RoutePointerMotion "mouse1" 1900 1000;
                     SetDisplayBounds (DisplayBounds.mk 0 0 100 100 "small");
                     RoutePointerMotion "mouse1" (-10) (-10)] two_seats in
  let m2 := run_ops [RoutePointerMotion "mouse1" (-10) (-10)] m1 in
  Cursor.position (Seat.cursor (the_seat m1 seat0_id)) = Position.mk 99 99 ∧
  Cursor.position (Seat.cursor (the_seat m2 seat0_id)) = Position.mk 89 89.
Proof. by vm_compute. Qed.

(** Why landing inside the region needs a display of width at least 1: with
    width 0 the interval [[0, -1]] is empty and the clamp yields [bounds.x]. *)
Example route_pointer_motion_empty_display :
  let m1 := run_ops [SetDisplayBounds (DisplayBounds.mk 0 0 0 0 "empty");
                     RoutePointerMotion "mouse1" 5 5] two_seats in
  Cursor.position (Seat.cursor (the_seat m1 seat0_id)) = Position.mk 0 0.
Proof. by vm_compute. Qed.

(* ===================================================================== *)
(** ** Failed operations *)
(* ===================================================================== *)

(** C7. A method that raises has touched nothing: whenever a call of a
    public method ends in one of the registry's exceptions, the registry
    after the call is the registry before it, and no event was emitted.  All
    the checks that can fail come before the first update. *)
Theorem failed_call_changes_nothing op m e :
  run_result (call op m) = inl e →
  run_state (call op m) = m ∧ run_trace (call op m) = [].
Proof.
  revert e. destruct op; run_cases; intros e He; by simplify_eq.
Qed.

Lemma failed_call_changes_nothing_witness :
  run_state (call (AssignDevice "mouse1" aux_id false) two_seats) = two_seats ∧
  run_trace (call (AssignDevice "mouse1" aux_id false) two_seats) = [].
Proof.
  apply (failed_call_changes_nothing (AssignDevice "mouse1" aux_id false)
           two_seats
           (DeviceAlreadyAssignedError
              ("Device mouse1 already assigned to seat " +:+ seat0_id))).
  by vm_compute.
Defined.

(* ===================================================================== *)
(** ** Event delivery *)
(* ===================================================================== *)







(* ===================================================================== *)
(** ** Uniqueness of device membership *)
(* ===================================================================== *)

(** C1 fails on the code.  From a fresh registry: create seat "aux",
    register mouse1, assign it to the default seat, register an
    [InputDevice] with the identifier mouse1 again, assign mouse1 to "aux".
    Every call returns normally, and mouse1 is then in the pointer-device set
    of the default seat and in that of "aux": [register_device] replaced the
    entry whose [seat_id] named the default seat by one whose [seat_id] is
    [None], so [assign_device] saw nothing to unassign. *)
Theorem reregistration_breaks_uniqueness :
  reachable reregistered ∧
  results reregister_ops fresh
  = [inr (RStr aux_id); inr RNone; inr RNone; inr RNone; inr RNone] ∧
  seat0_id ≠ aux_id ∧
  (∃ s1 s2,
     _seats reregistered !! seat0_id = Some s1 ∧
     _seats reregistered !! aux_id = Some s2 ∧
     "mouse1" ∈ Seat.pointer_devices s1 ∧
     "mouse1" ∈ Seat.pointer_devices s2) ∧
  ¬ unique_membership reregistered.
Proof.
  assert (Hne : seat0_id ≠ aux_id) by by vm_compute.
  assert (H1 : _seats reregistered !! seat0_id
               = Some (the_seat reregistered seat0_id)) by by vm_compute.
  assert (H2 : _seats reregistered !! aux_id
               = Some (the_seat reregistered aux_id)) by by vm_compute.
  assert (Hin1 : "mouse1" ∈ Seat.pointer_devices (the_seat reregistered seat0_id)).
  { eapply bool_decide_unpack. by vm_compute. }
  assert (Hin2 : "mouse1" ∈ Seat.pointer_devices (the_seat reregistered aux_id)).
  { eapply bool_decide_unpack. by vm_compute. }
  split; [apply run_ops_reachable; constructor|].
  split; [by vm_compute|]. split; [done|]. split; [by eauto 10|].
  intros Huniq. apply Hne.
  by apply (proj1 (Huniq _ _ _ _ "mouse1" H1 H2)).
Qed.

(** *** What holds without re-registration *)

(** The loop of [destroy_seat] clears [seat_id] for the listed identifiers
    and leaves the other devices alone. *)
Lemma clear_step_alter (devices : gmap string InputDevice.t) i :
  match devices !! i with
  | Some _ => alter (InputDevice.set_seat_id None) i devices
  | None => devices
  end = alter (InputDevice.set_seat_id None) i devices.
Proof.
  destruct (devices !! i) eqn:Hi; [done|].
  apply map_eq. intros j. rewrite lookup_alter.
  destruct (decide (i = j)) as [->|]; [|done]. by rewrite Hi.
Qed.

Lemma clear_assignments_lookup ids devices d :
  clear_assignments ids devices !! d
  = if decide (d ∈ ids) then InputDevice.set_seat_id None <$> devices !! d
    else devices !! d.
Proof.
  unfold clear_assignments. revert devices.
  induction ids as [|i ids IH]; intros devices; cbn [foldl].
  - destruct (decide (d ∈ [])) as [Hin|]; [|done]. by apply elem_of_nil in Hin.
  - rewrite IH, clear_step_alter, lookup_alter.
    destruct (decide (i = d)) as [->|Hne].
    + rewrite (decide_True (P := d ∈ d :: ids)) by apply list_elem_of_here.
      destruct (decide (d ∈ ids)); [|done].
      by destruct (devices !! d).
    + destruct (decide (d ∈ ids)) as [Hin|Hin].
      * rewrite decide_True; [done|]. by apply list_elem_of_further.
      * rewrite decide_False; [done|].
        intros [?|?]%elem_of_cons; [by subst|done].
Qed.

Lemma truthy_nonempty k : k ≠ "" → truthy (Some k) = true.
Proof. apply truthy_Some. Qed.

Ltac truthy_contra :=
  match goal with
  | H1 : truthy ?o = true, H2 : negb (truthy ?o) = true |- _ =>
      rewrite H1 in H2; done
  end.

(** The invariant across a call that touches the device [d0] only. *)
Ltac recorded_for Hwf Hrec d0 :=
  let k := fresh "k" in
  let s' := fresh "s'" in
  let d := fresh "d" in
  let Hk := fresh "Hk" in
  let Hin := fresh "Hin" in
  let Hd := fresh "Hd" in
  intros k s' d Hk Hin; run_cbn; seats_inv; seat_cbn; try done;
  try truthy_contra;
  destruct (decide (d = d0)) as [->|Hd]; devices_lookup;
  try (eapply Hrec; [eassumption|]; clear -Hin Hd; set_solver);
  try match goal with H : _devices _ !! _ = Some _ |- _ => rewrite H end;
  cbn [fmap option_fmap option_map]; seat_cbn;
  try (by eexists);
  exfalso;
  try (clear -Hin; set_solver);
  let dev := fresh "dev" in
  let Hdev := fresh "Hdev" in
  let Hsid := fresh "Hsid" in
  assert (∃ dev, _devices _ !! d0 = Some dev ∧
                 InputDevice.seat_id dev = Some k)
    as (dev & Hdev & Hsid)
    by (eapply Hrec; [eassumption|]; clear -Hin; set_solver);
  assert (truthy (Some k) = true)
    by (eapply truthy_nonempty, wf_key_nonempty; eassumption);
  simplify_eq; congruence.

Lemma recorded_init default_seat_name random :
  membership_recorded (__init__ default_seat_name random).
Proof.
  unfold __init__. run_cases. intros k s d Hk Hin. run_cbn. seats_inv.
  - seat_cbn. exfalso. clear -Hin. set_solver.
  - by rewrite lookup_empty in Hk.
Qed.

Lemma recorded_call m op :
  wf m → membership_recorded m → registers_cleanly m op →
  membership_recorded (run_state (call op m)).
Proof.
  intros Hwf Hrec Hclean.
  destruct op; cbn [registers_cleanly] in Hclean.
  - (* create_seat *)
    run_cases. intros k s d Hk Hin. run_cbn. seats_inv.
    + seat_cbn. exfalso. clear -Hin. set_solver.
    + by eapply Hrec.
  - (* destroy_seat *)
    run_cases; try done.
    intros k s d Hk Hin. run_cbn. seats_inv.
    destruct (Hrec k s d Hk Hin) as (dev & Hdev & Hsid).
    exists dev. split; [|done].
    rewrite clear_assignments_lookup, decide_False; [done|].
    intros Hd%elem_of_app.
    assert (∃ dev', _devices m !! d = Some dev' ∧
                    InputDevice.seat_id dev' = Some seat_id)
      as (dev' & Hdev' & Hsid').
    { eapply Hrec; [eassumption|]. rewrite <- !elem_of_elements. tauto. }
    by simplify_eq.
  - (* set_seat_state *)
    run_cases; try done. intros k s d Hk Hin. run_cbn. seats_inv; seat_cbn;
      by eapply Hrec.
  - (* register_device *)
    run_cases. intros k s d Hk Hin. run_cbn.
    destruct (decide (d = InputDevice.id device)) as [->|Hd]; devices_lookup.
    + eexists. split; [done|]. by eapply Hclean.
    + by eapply Hrec.
  - (* unregister_device *)
    run_cases; try done; recorded_for Hwf Hrec device_id.
  - (* assign_device *)
    run_cases; try done; recorded_for Hwf Hrec device_id.
  - (* unassign_device *)
    run_cases; try done; recorded_for Hwf Hrec device_id.
  - (* auto_assign_device *)
    run_cases; try done; recorded_for Hwf Hrec device_id.
  - run_cases; try done; intros ? ? ? Hk Hin; run_cbn; routed_inv; seats_inv;
      seat_cbn; simplify_eq; by eapply Hrec.
  - run_cases; try done; intros ? ? ? Hk Hin; run_cbn; routed_inv; seats_inv;
      seat_cbn; simplify_eq; by eapply Hrec.
  - run_cases; try done; intros ? ? ? Hk Hin; run_cbn; routed_inv; seats_inv;
      seat_cbn; simplify_eq; by eapply Hrec.
  - run_cases; try done; intros ? ? ? Hk Hin; run_cbn; routed_inv; seats_inv;
      seat_cbn; simplify_eq; by eapply Hrec.
  - run_cases; try done; intros ? ? ? Hk Hin; run_cbn; routed_inv; seats_inv;
      seat_cbn; simplify_eq; by eapply Hrec.
  - run_cases; try done; intros ? ? ? Hk Hin; run_cbn; routed_inv; seats_inv;
      seat_cbn; simplify_eq; by eapply Hrec.
  - run_cases; try done; intros ? ? ? Hk Hin; run_cbn; routed_inv; seats_inv;
      seat_cbn; simplify_eq; by eapply Hrec.
  - run_cases; try done; intros ? ? ? Hk Hin; run_cbn; routed_inv; seats_inv;
      seat_cbn; simplify_eq; by eapply Hrec.
Qed.

Lemma cleanly_reachable_reachable m : cleanly_reachable m → reachable m.
Proof. induction 1; by constructor. Qed.

Lemma cleanly_reachable_recorded m : cleanly_reachable m → membership_recorded m.
Proof.
  induction 1 as [|m op Hm IH Hclean]; [apply recorded_init|].
  apply recorded_call; [|done..].
  by apply reachable_wf, cleanly_reachable_reachable.
Qed.

Lemma recorded_unique m : membership_recorded m → unique_membership m.
Proof.
  intros Hrec k1 k2 s1 s2 d H1 H2. split; intros Hin1 Hin2.
  - destruct (Hrec k1 s1 d H1 (or_introl Hin1)) as (dev1 & Hd1 & Hs1).
    destruct (Hrec k2 s2 d H2 (or_introl Hin2)) as (dev2 & Hd2 & Hs2).
    by simplify_eq.
  - destruct (Hrec k1 s1 d H1 (or_intror Hin1)) as (dev1 & Hd1 & Hs1).
    destruct (Hrec k2 s2 d H2 (or_intror Hin2)) as (dev2 & Hd2 & Hs2).
    by simplify_eq.
Qed.

(** Uniqueness along every sequence of calls in which [register_device] is
    never handed an identifier that a seat still lists (unless the device
    handed in records that very seat): no identifier is then in the
    pointer-device sets of two seats or in the keyboard-device sets of two
    seats.  The re-registration above is the only way out of uniqueness. *)
Theorem uniqueness_without_reregistration m :
  cleanly_reachable m → unique_membership m.
Proof. intros Hm. by apply recorded_unique, cleanly_reachable_recorded. Qed.

(* ===================================================================== *)
(** ** Further properties of the registry: seats *)
(* ===================================================================== *)

(** X1. [create_seat] always returns normally with a fresh seat stored
    under the identifier it returns: [get_seat] on it yields a seat with the
    given name, active, cursor at the origin, no grab and no device; every
    seat under another key and every device is left alone, and one
    [SEAT_CREATED] event carries the identifier and the name. *)
Theorem create_seat_then_get_seat m name random :
  let r := create_seat name random m in
  let m' := run_state r in
  run_result r = inr (uuid4 random) ∧
  get_seat (uuid4 random) m'
  = mkRun m' []
      (inr (Seat.mk (uuid4 random) name SeatState.ACTIVE
              (Cursor.mk (Position.mk 0 0) true "default" "left_ptr" 0 0)
              (FocusState.mk None None) None None ∅ ∅)) ∧
  (∀ k, k ≠ uuid4 random → _seats m' !! k = _seats m !! k) ∧
  _devices m' = _devices m ∧
  emitted <$> run_trace r
  = [Event.mk EventType.SEAT_CREATED (Some (uuid4 random)) None
       [("name", VStr name)]].
Proof.
  cbv zeta. unfold create_seat. run_unfold. run_cbn. seat_cbn.
  rewrite lookup_insert_eq. repeat split; try done.
  intros k Hk. by rewrite lookup_insert_ne.
Qed.

(** What a successful [destroy_seat] leaves behind. *)
Lemma destroy_seat_run m seat_id seat :
  _seats m !! seat_id = Some seat →
  seat_id ≠ _default_seat_id m →
  let ev := Event.mk EventType.SEAT_DESTROYED (Some seat_id) None
              [("name", VStr (Seat.name seat))] in
  destroy_seat seat_id m
  = mkRun (set_seats (delete seat_id (_seats m))
             (set_devices
                (clear_assignments
                   (elements (Seat.pointer_devices seat)
                    ++ elements (Seat.keyboard_devices seat))
                   (_devices m)) m))
          [mkEmission ev (call_listeners (_event_listeners m) ev)]
          (inr ()).
Proof.
  intros Hseat Hdef. cbv zeta. unfold destroy_seat. run_unfold. run_cbn.
  rewrite Hseat. by rewrite bool_decide_eq_false_2 by done.
Qed.

(** X2. A successful [destroy_seat] (the seat exists and is not the default
    seat) removes the seat, so that [get_seat] on it raises
    [SeatNotFoundError]; it clears the [seat_id] of exactly the devices
    listed in the seat's two sets and unregisters none; it leaves every
    other seat alone and emits one [SEAT_DESTROYED] event. *)
Theorem destroy_seat_effect m seat_id seat :
  _seats m !! seat_id = Some seat →
  seat_id ≠ _default_seat_id m →
  let r := destroy_seat seat_id m in
  let m' := run_state r in
  run_result r = inr () ∧
  run_result (get_seat seat_id m')
  = inl (SeatNotFoundError ("Seat " +:+ seat_id +:+ " not found")) ∧
  (∀ k, k ≠ seat_id → _seats m' !! k = _seats m !! k) ∧
  (∀ d, d ∈ Seat.pointer_devices seat ∨ d ∈ Seat.keyboard_devices seat →
        _devices m' !! d = InputDevice.set_seat_id None <$> _devices m !! d) ∧
  (∀ d, d ∉ Seat.pointer_devices seat → d ∉ Seat.keyboard_devices seat →
        _devices m' !! d = _devices m !! d) ∧
  emitted <$> run_trace r
  = [Event.mk EventType.SEAT_DESTROYED (Some seat_id) None
       [("name", VStr (Seat.name seat))]].
Proof.
  intros Hseat Hdef. cbv zeta.
  rewrite (destroy_seat_run m seat_id seat Hseat Hdef). cbv zeta.
  unfold get_seat. run_unfold. run_cbn. rewrite lookup_delete_eq. run_cbn.
  repeat split; try done.
  - intros k Hk. by rewrite lookup_delete_ne.
  - intros d Hd. rewrite clear_assignments_lookup, decide_True; [done|].
    rewrite elem_of_app, !elem_of_elements. tauto.
  - intros d Hp Hk. rewrite clear_assignments_lookup, decide_False; [done|].
    rewrite elem_of_app, !elem_of_elements. tauto.
Qed.

Lemma destroy_seat_effect_witness :
  let m' := run_state (destroy_seat aux_id two_seats) in
  run_result (get_seat aux_id m')
  = inl (SeatNotFoundError ("Seat " +:+ aux_id +:+ " not found")) ∧
  _devices m' !! "mouse2"
  = InputDevice.set_seat_id None <$> _devices two_seats !! "mouse2".
Proof.
  pose proof (destroy_seat_effect two_seats aux_id (the_seat two_seats aux_id))
    as H.
  cbv zeta in H. destruct H as (_ & H2 & _ & H4 & _); [by vm_compute..|].
  split; [exact H2|]. apply H4. left. eapply bool_decide_unpack. by vm_compute.
Defined.

(** X3. [destroy_seat] goes by the seat's device sets, not by the devices'
    [seat_id]: a device assigned to the destroyed seat but listed in neither
    set (one without pointer and keyboard capability) keeps its [seat_id].
    Afterwards the registry reports no seat for it, routes nothing from it,
    and refuses to assign it without [force]. *)
Theorem destroy_seat_keeps_unlisted_assignment
    m seat_id seat device_id device other dx dy :
  _seats m !! seat_id = Some seat →
  seat_id ≠ _default_seat_id m →
  _devices m !! device_id = Some device →
  InputDevice.seat_id device = Some seat_id →
  seat_id ≠ "" →
  device_id ∉ Seat.pointer_devices seat →
  device_id ∉ Seat.keyboard_devices seat →
  let m' := run_state (destroy_seat seat_id m) in
  _devices m' !! device_id = Some device ∧
  get_seat_for_device m' device_id = None ∧
  route_pointer_motion device_id dx dy m' = mkRun m' [] (inr None) ∧
  (is_Some (_seats m' !! other) →
   assign_device device_id other false m'
   = mkRun m' []
       (inl (DeviceAlreadyAssignedError
               ("Device " +:+ device_id +:+ " already assigned to seat "
                +:+ seat_id)))).
Proof.
  intros Hseat Hdef Hdev Hsid Hne Hp Hk m'.
  assert (Hdev' : _devices m' !! device_id = Some device).
  { subst m'. rewrite (destroy_seat_run m seat_id seat Hseat Hdef). run_cbn.
    rewrite clear_assignments_lookup, decide_False; [done|].
    rewrite elem_of_app, !elem_of_elements. tauto. }
  assert (Hgone : _seats m' !! seat_id = None).
  { subst m'. rewrite (destroy_seat_run m seat_id seat Hseat Hdef). run_cbn.
    apply lookup_delete_eq. }
  clearbody m'.
  assert (Ht : truthy (Some seat_id) = true) by by apply truthy_Some.
  split; [done|]. split; [|split].
  - unfold get_seat_for_device. by rewrite Hdev', Hsid, Ht, Hgone.
  - unfold route_pointer_motion, routed_seat. run_unfold. run_cbn.
    by rewrite Hdev', Hsid, Ht, Hgone.
  - intros [so Hso]. unfold assign_device. run_unfold. run_cbn.
    rewrite Hdev'. run_cbn. rewrite Hso. run_cbn.
    by rewrite Hsid, Ht.
Qed.

Lemma destroy_seat_keeps_unlisted_assignment_witness :
  let m' := run_state (destroy_seat aux_id two_seats_touch) in
  InputDevice.seat_id <$> _devices m' !! "touch1" = Some (Some aux_id) ∧
  get_seat_for_device m' "touch1" = None.
Proof.
  pose proof (destroy_seat_keeps_unlisted_assignment two_seats_touch aux_id
                (the_seat two_seats_touch aux_id) "touch1"
                (the_device two_seats_touch "touch1") seat0_id 0 0) as H.
  cbv zeta in H.
  destruct H as (H1 & H2 & _);
    [by vm_compute | by vm_compute | by vm_compute | by vm_compute
    | by vm_compute
    | eapply bool_decide_unpack; by vm_compute
    | eapply bool_decide_unpack; by vm_compute |].
  split; [|exact H2]. rewrite H1. by vm_compute.
Defined.

(* ===================================================================== *)
(** ** Further properties of the registry: devices *)
(* ===================================================================== *)

(** What [unassign_device] does to a device with a seat assignment. *)
Lemma unassign_device_run m device_id device seat_id :
  _devices m !! device_id = Some device →
  InputDevice.seat_id device = Some seat_id →
  seat_id ≠ "" →
  let ev := Event.mk EventType.DEVICE_UNASSIGNED (Some seat_id) (Some device_id)
              [("device_name", VStr (InputDevice.name device))] in
  unassign_device device_id m
  = mkRun (set_devices (alter (InputDevice.set_seat_id None) device_id (_devices m))
             (set_seats
                (alter (λ seat, Seat.remove_keyboard_device device_id
                                  (Seat.remove_pointer_device device_id seat))
                       seat_id (_seats m)) m))
          [mkEmission ev (call_listeners (_event_listeners m) ev)]
          (inr ()).
Proof.
  intros Hdev Hsid Hne. apply truthy_Some in Hne. cbv zeta.
  unfold unassign_device. run_unfold. run_cbn. rewrite Hdev. run_cbn.
  rewrite Hsid, Hne. by run_cbn.
Qed.

(** What [assign_device] does with a device that has no assignment. *)
Lemma assign_device_run m device_id device seat_id seat force :
  _devices m !! device_id = Some device →
  truthy (InputDevice.seat_id device) = false →
  _seats m !! seat_id = Some seat →
  let ev := Event.mk EventType.DEVICE_ASSIGNED (Some seat_id) (Some device_id)
              [("device_name", VStr (InputDevice.name device));
               ("seat_name", VStr (Seat.name seat))] in
  let with_pointer seats :=
    if InputDevice.has_capability device DeviceCapability.POINTER
    then alter (Seat.add_pointer_device device_id) seat_id seats else seats in
  let with_keyboard seats :=
    if InputDevice.has_capability device DeviceCapability.KEYBOARD
    then alter (Seat.add_keyboard_device device_id) seat_id seats else seats in
  assign_device device_id seat_id force m
  = mkRun (set_seats (with_keyboard (with_pointer (_seats m)))
             (set_devices
                (alter (InputDevice.set_seat_id (Some seat_id)) device_id
                       (_devices m)) m))
          [mkEmission ev (call_listeners (_event_listeners m) ev)]
          (inr ()).
Proof.
  intros Hdev Ht Hseat. cbv zeta.
  unfold assign_device. run_unfold. run_cbn.
  rewrite Hdev. run_cbn. rewrite Hseat. run_cbn. rewrite Ht. run_cbn.
  destruct (InputDevice.has_capability device DeviceCapability.POINTER);
    destruct (InputDevice.has_capability device DeviceCapability.KEYBOARD);
    by run_cbn.
Qed.

(** X4. Assigning a device that has no assignment to an existing seat
    returns normally, for either value of [force]: the device's [seat_id]
    becomes the seat; the device joins the seat's pointer-device set exactly
    when it has the pointer capability and its keyboard-device set exactly
    when it has the keyboard capability (a device with neither is assigned
    but listed nowhere); the seat's state, cursor and grab, every other seat
    and every other device are left alone; one [DEVICE_ASSIGNED] event is
    emitted. *)
Theorem assign_device_effect m device_id device seat_id seat force :
  _devices m !! device_id = Some device →
  truthy (InputDevice.seat_id device) = false →
  _seats m !! seat_id = Some seat →
  let r := assign_device device_id seat_id force m in
  let m' := run_state r in
  run_result r = inr () ∧
  _devices m' !! device_id
  = Some (InputDevice.set_seat_id (Some seat_id) device) ∧
  (∀ d, d ≠ device_id → _devices m' !! d = _devices m !! d) ∧
  (∃ seat',
     _seats m' !! seat_id = Some seat' ∧
     Seat.pointer_devices seat'
     = (if InputDevice.has_capability device DeviceCapability.POINTER
        then {[device_id]} ∪ Seat.pointer_devices seat
        else Seat.pointer_devices seat) ∧
     Seat.keyboard_devices seat'
     = (if InputDevice.has_capability device DeviceCapability.KEYBOARD
        then {[device_id]} ∪ Seat.keyboard_devices seat
        else Seat.keyboard_devices seat) ∧
     Seat.state seat' = Seat.state seat ∧
     Seat.cursor seat' = Seat.cursor seat ∧
     Seat.pointer_grab seat' = Seat.pointer_grab seat ∧
     Seat.id seat' = Seat.id seat ∧ Seat.name seat' = Seat.name seat) ∧
  (∀ k, k ≠ seat_id → _seats m' !! k = _seats m !! k) ∧
  emitted <$> run_trace r
  = [Event.mk EventType.DEVICE_ASSIGNED (Some seat_id) (Some device_id)
       [("device_name", VStr (InputDevice.name device));
        ("seat_name", VStr (Seat.name seat))]].
Proof.
  intros Hdev Ht Hseat. cbv zeta.
  rewrite (assign_device_run m device_id device seat_id seat force Hdev Ht Hseat).
  cbv zeta. run_cbn. rewrite lookup_alter_eq, Hdev.
  split; [done|]. split; [done|]. split.
  { intros d Hd. by rewrite lookup_alter_ne. }
  split; [|split; [|done]].
  - destruct (InputDevice.has_capability device DeviceCapability.POINTER);
      destruct (InputDevice.has_capability device DeviceCapability.KEYBOARD);
      rewrite ?lookup_alter_eq, ?Hseat; eexists; (split; [reflexivity|]);
      by seat_cbn.
  - intros k Hk.
    destruct (InputDevice.has_capability device DeviceCapability.POINTER);
      destruct (InputDevice.has_capability device DeviceCapability.KEYBOARD);
      by rewrite ?lookup_alter_ne.
Qed.

Lemma assign_device_effect_witness :
  let r := assign_device "keyboard1" aux_id false two_seats_touch in
  run_result r = inr () ∧
  _devices (run_state r) !! "keyboard1"
  = Some (InputDevice.set_seat_id (Some aux_id)
            (the_device two_seats_touch "keyboard1")).
Proof.
  pose proof (assign_device_effect two_seats_touch "keyboard1"
                (the_device two_seats_touch "keyboard1") aux_id
                (the_seat two_seats_touch aux_id) false) as H.
  cbv zeta in H. destruct H as (H1 & H2 & _); [by vm_compute..|].
  by split.
Defined.

(** What [assign_device] with [force] does to a device assigned to another
    seat: the unassign sequence first, then the assignment. *)
Lemma assign_device_force_run m device_id device old seat_id seat :
  _devices m !! device_id = Some device →
  InputDevice.seat_id device = Some old →
  old ≠ "" →
  _seats m !! seat_id = Some seat →
  let ev1 := Event.mk EventType.DEVICE_UNASSIGNED (Some old) (Some device_id)
               [("device_name", VStr (InputDevice.name device))] in
  let ev2 := Event.mk EventType.DEVICE_ASSIGNED (Some seat_id) (Some device_id)
               [("device_name", VStr (InputDevice.name device));
                ("seat_name", VStr (Seat.name seat))] in
  let unassigned :=
    alter (λ seat, Seat.remove_keyboard_device device_id
                     (Seat.remove_pointer_device device_id seat))
          old (_seats m) in
  let with_pointer seats :=
    if InputDevice.has_capability device DeviceCapability.POINTER
    then alter (Seat.add_pointer_device device_id) seat_id seats else seats in
  let with_keyboard seats :=
    if InputDevice.has_capability device DeviceCapability.KEYBOARD
    then alter (Seat.add_keyboard_device device_id) seat_id seats else seats in
  assign_device device_id seat_id true m
  = mkRun (set_seats (with_keyboard (with_pointer unassigned))
             (set_devices
                (alter (InputDevice.set_seat_id (Some seat_id)) device_id
                   (alter (InputDevice.set_seat_id None) device_id (_devices m)))
                m))
          [mkEmission ev1 (call_listeners (_event_listeners m) ev1);
           mkEmission ev2 (call_listeners (_event_listeners m) ev2)]
          (inr ()).
Proof.
  intros Hdev Hsid Hne Hseat. apply truthy_Some in Hne. cbv zeta.
  unfold assign_device, unassign_device. run_unfold. run_cbn.
  rewrite Hdev. run_cbn. rewrite Hseat. run_cbn. rewrite Hsid, Hne. run_cbn.
  rewrite Hdev. run_cbn. rewrite Hsid, Hne. run_cbn.
  destruct (InputDevice.has_capability device DeviceCapability.POINTER);
    destruct (InputDevice.has_capability device DeviceCapability.KEYBOARD);
    by run_cbn.
Qed.

(** X5. A forced assignment of a device that is assigned to another seat
    moves it: the device leaves both sets of the old seat, joins the sets of
    the new seat by capability, its [seat_id] becomes the new seat, and the
    listeners see [DEVICE_UNASSIGNED] for the old seat and then
    [DEVICE_ASSIGNED] for the new one.  Without [force] the same call raises
    [DeviceAlreadyAssignedError]. *)
Theorem assign_device_force_moves m device_id device old old_seat seat_id seat :
  _devices m !! device_id = Some device →
  InputDevice.seat_id device = Some old →
  old ≠ "" →
  _seats m !! old = Some old_seat →
  _seats m !! seat_id = Some seat →
  old ≠ seat_id →
  let r := assign_device device_id seat_id true m in
  let m' := run_state r in
  run_result r = inr () ∧
  InputDevice.seat_id <$> _devices m' !! device_id = Some (Some seat_id) ∧
  (∃ old_seat',
     _seats m' !! old = Some old_seat' ∧
     (device_id ∉ Seat.pointer_devices old_seat') ∧
     (device_id ∉ Seat.keyboard_devices old_seat')) ∧
  (∃ seat',
     _seats m' !! seat_id = Some seat' ∧
     (device_id ∈ Seat.pointer_devices seat' ↔
        InputDevice.has_capability device DeviceCapability.POINTER = true
        ∨ device_id ∈ Seat.pointer_devices seat) ∧
     (device_id ∈ Seat.keyboard_devices seat' ↔
        InputDevice.has_capability device DeviceCapability.KEYBOARD = true
        ∨ device_id ∈ Seat.keyboard_devices seat)) ∧
  Event.event_type <$> (emitted <$> run_trace r)
  = [EventType.DEVICE_UNASSIGNED; EventType.DEVICE_ASSIGNED] ∧
  Event.seat_id <$> (emitted <$> run_trace r) = [Some old; Some seat_id] ∧
  (∃ msg, run_result (assign_device device_id seat_id false m)
          = inl (DeviceAlreadyAssignedError msg)).
Proof.
  intros Hdev Hsid Hne Hold Hseat Hdiff. cbv zeta.
  rewrite (assign_device_force_run m device_id device old seat_id seat
             Hdev Hsid Hne Hseat).
  cbv zeta. run_cbn. rewrite !lookup_alter_eq, Hdev.
  split; [done|]. split; [done|]. split; [|split].
  - exists (Seat.remove_keyboard_device device_id
              (Seat.remove_pointer_device device_id old_seat)).
    split.
    + destruct (InputDevice.has_capability device DeviceCapability.POINTER);
        destruct (InputDevice.has_capability device DeviceCapability.KEYBOARD);
        rewrite ?(lookup_alter_ne _ _ seat_id old) by done;
        by rewrite lookup_alter_eq, Hold.
    + seat_cbn. set_solver.
  - destruct (InputDevice.has_capability device DeviceCapability.POINTER);
      destruct (InputDevice.has_capability device DeviceCapability.KEYBOARD);
      rewrite ?lookup_alter_eq, (lookup_alter_ne _ _ old seat_id), Hseat by done;
      eexists; (split; [reflexivity|]); seat_cbn; set_solver.
  - split; [done|]. split; [done|].
    apply truthy_Some in Hne.
    unfold assign_device. run_unfold. run_cbn.
    rewrite Hdev. run_cbn. rewrite Hseat. run_cbn. rewrite Hsid, Hne. run_cbn.
    by eexists.
Qed.

Lemma assign_device_force_moves_witness :
  let r := assign_device "mouse1" aux_id true two_seats in
  run_result r = inr () ∧
  InputDevice.seat_id <$> _devices (run_state r) !! "mouse1"
  = Some (Some aux_id).
Proof.
  pose proof (assign_device_force_moves two_seats "mouse1"
                (the_device two_seats "mouse1") seat0_id
                (the_seat two_seats seat0_id) aux_id
                (the_seat two_seats aux_id)) as H.
  cbv zeta in H. destruct H as (H1 & H2 & _); [by vm_compute..|].
  by split.
Defined.

(** X6. Assigning an unassigned device to a seat that does not list it and
    unassigning it again gives back the registry exactly as it was. *)
Theorem assign_then_unassign m device_id device seat_id seat force :
  _devices m !! device_id = Some device →
  InputDevice.seat_id device = None →
  _seats m !! seat_id = Some seat →
  seat_id ≠ "" →
  device_id ∉ Seat.pointer_devices seat →
  device_id ∉ Seat.keyboard_devices seat →
  let r1 := assign_device device_id seat_id force m in
  let r2 := unassign_device device_id (run_state r1) in
  run_result r1 = inr () ∧ run_result r2 = inr () ∧ run_state r2 = m.
Proof.
  intros Hdev Hsid Hseat Hne Hp Hk. cbv zeta.
  assert (Ht : truthy (InputDevice.seat_id device) = false) by by rewrite Hsid.
  rewrite (assign_device_run m device_id device seat_id seat force Hdev Ht Hseat).
  cbv zeta. run_cbn. split; [done|].
  erewrite unassign_device_run;
    [|run_cbn; rewrite lookup_alter_eq, Hdev; reflexivity|reflexivity|done].
  cbv zeta. run_cbn. split; [done|].
  destruct m as [seats devices ls b dflt]. run_cbn. unfold set_seats, set_devices.
  run_cbn. f_equal.
  - apply map_eq. intros k. destruct (decide (k = seat_id)) as [->|Hk'].
    + rewrite lookup_alter_eq.
      destruct (InputDevice.has_capability device DeviceCapability.POINTER);
        destruct (InputDevice.has_capability device DeviceCapability.KEYBOARD);
        rewrite ?lookup_alter_eq, Hseat; destruct seat;
        cbn [fmap option_fmap option_map]; f_equal;
        unfold Seat.remove_keyboard_device, Seat.remove_pointer_device,
          Seat.add_keyboard_device, Seat.add_pointer_device,
          Seat.set_keyboard_devices, Seat.set_pointer_devices;
        seat_cbn; f_equal; set_solver.
    + rewrite lookup_alter_ne by done.
      destruct (InputDevice.has_capability device DeviceCapability.POINTER);
        destruct (InputDevice.has_capability device DeviceCapability.KEYBOARD);
        by rewrite ?lookup_alter_ne.
  - apply map_eq. intros d. destruct (decide (d = device_id)) as [->|Hd].
    + rewrite !lookup_alter_eq, Hdev. destruct device. cbn in *. by subst.
    + by rewrite !lookup_alter_ne.
Qed.

Lemma assign_then_unassign_witness :
  let r1 := assign_device "keyboard1" aux_id false two_seats_touch in
  run_state (unassign_device "keyboard1" (run_state r1)) = two_seats_touch.
Proof.
  pose proof (assign_then_unassign two_seats_touch "keyboard1"
                (the_device two_seats_touch "keyboard1") aux_id
                (the_seat two_seats_touch aux_id) false) as H.
  cbv zeta in H.
  destruct H as (_ & _ & H3);
    [by vm_compute | by vm_compute | by vm_compute | by vm_compute
    | eapply bool_decide_unpack; by vm_compute
    | eapply bool_decide_unpack; by vm_compute |].
  exact H3.
Defined.

(** What [unregister_device] does to a device with a seat assignment, and
    to one without. *)
Lemma unregister_device_run_assigned m device_id device seat_id :
  _devices m !! device_id = Some device →
  InputDevice.seat_id device = Some seat_id →
  seat_id ≠ "" →
  let ev1 := Event.mk EventType.DEVICE_UNASSIGNED (Some seat_id) (Some device_id)
               [("device_name", VStr (InputDevice.name device))] in
  let ev2 := Event.mk EventType.DEVICE_REMOVED None (Some device_id)
               [("name", VStr (InputDevice.name device))] in
  unregister_device device_id m
  = mkRun (set_devices
             (delete device_id
                (alter (InputDevice.set_seat_id None) device_id (_devices m)))
             (set_seats
                (alter (λ seat, Seat.remove_keyboard_device device_id
                                  (Seat.remove_pointer_device device_id seat))
                       seat_id (_seats m)) m))
          [mkEmission ev1 (call_listeners (_event_listeners m) ev1);
           mkEmission ev2 (call_listeners (_event_listeners m) ev2)]
          (inr ()).
Proof.
  intros Hdev Hsid Hne. cbv zeta.
  pose proof (unassign_device_run m device_id device seat_id Hdev Hsid Hne) as Hun.
  cbv zeta in Hun. apply truthy_Some in Hne.
  unfold unregister_device. unfold mbind at 1, M_bind, get. run_cbn.
  rewrite Hdev, Hsid, Hne.
  unfold mbind at 1, M_bind. rewrite Hun.
  run_unfold. by run_cbn.
Qed.

Lemma unregister_device_run_unassigned m device_id device :
  _devices m !! device_id = Some device →
  truthy (InputDevice.seat_id device) = false →
  let ev := Event.mk EventType.DEVICE_REMOVED None (Some device_id)
              [("name", VStr (InputDevice.name device))] in
  unregister_device device_id m
  = mkRun (set_devices (delete device_id (_devices m)) m)
          [mkEmission ev (call_listeners (_event_listeners m) ev)]
          (inr ()).
Proof.
  intros Hdev Ht. cbv zeta.
  unfold unregister_device. run_unfold. run_cbn.
  rewrite Hdev, Ht. by run_cbn.
Qed.

(** X7. A successful [unregister_device] forgets the device and nothing
    else: the other devices stay as they are, a second call raises
    [DeviceNotFoundError], and nothing is routed from the identifier any
    more.  The listeners see [DEVICE_UNASSIGNED] before [DEVICE_REMOVED] when
    the device had an assignment and [DEVICE_REMOVED] alone otherwise.  In a
    registry where listed devices are recorded, no seat lists the identifier
    afterwards. *)
Theorem unregister_device_effect m device_id device dx dy :
  _devices m !! device_id = Some device →
  let r := unregister_device device_id m in
  let m' := run_state r in
  run_result r = inr () ∧
  _devices m' !! device_id = None ∧
  (∀ d, d ≠ device_id → _devices m' !! d = _devices m !! d) ∧
  Event.event_type <$> (emitted <$> run_trace r)
  = (if truthy (InputDevice.seat_id device)
     then [EventType.DEVICE_UNASSIGNED; EventType.DEVICE_REMOVED]
     else [EventType.DEVICE_REMOVED]) ∧
  unregister_device device_id m'
  = mkRun m' []
      (inl (DeviceNotFoundError ("Device " +:+ device_id +:+ " not found"))) ∧
  route_pointer_motion device_id dx dy m' = mkRun m' [] (inr None) ∧
  (wf m → membership_recorded m →
   ∀ k s, _seats m' !! k = Some s →
          (device_id ∉ Seat.pointer_devices s) ∧
          (device_id ∉ Seat.keyboard_devices s)).
Proof.
  intros Hdev r m'.
  assert (Hmain :
    run_result r = inr () ∧
    _devices m' !! device_id = None ∧
    (∀ d, d ≠ device_id → _devices m' !! d = _devices m !! d) ∧
    Event.event_type <$> (emitted <$> run_trace r)
    = (if truthy (InputDevice.seat_id device)
       then [EventType.DEVICE_UNASSIGNED; EventType.DEVICE_REMOVED]
       else [EventType.DEVICE_REMOVED]) ∧
    (wf m → membership_recorded m →
     ∀ k s, _seats m' !! k = Some s →
            (device_id ∉ Seat.pointer_devices s) ∧
            (device_id ∉ Seat.keyboard_devices s))).
  { subst m' r.
    destruct (truthy (InputDevice.seat_id device)) eqn:Ht.
    - destruct (InputDevice.seat_id device) as [sid|] eqn:Hsid; [|done].
      pose proof Ht as Hne. apply truthy_Some in Hne.
      rewrite (unregister_device_run_assigned m device_id device sid
                 Hdev Hsid Hne).
      cbv zeta. run_cbn. rewrite lookup_delete_eq.
      split; [done|]. split; [done|]. split; [|split; [done|]].
      + intros d Hd%not_eq_sym. by rewrite lookup_delete_ne, lookup_alter_ne.
      + intros Hwf Hrec k s Hk. seats_inv; seat_cbn; [set_solver|].
        split; intros Hin;
          (destruct (Hrec k s device_id Hk) as (dev & Hd & Hs); [by auto|]);
          by simplify_eq.
    - rewrite (unregister_device_run_unassigned m device_id device Hdev Ht).
      cbv zeta. run_cbn. rewrite lookup_delete_eq.
      split; [done|]. split; [done|]. split; [|split; [done|]].
      + intros d Hd%not_eq_sym. by rewrite lookup_delete_ne.
      + intros Hwf Hrec k s Hk.
        split; intros Hin;
          (destruct (Hrec k s device_id Hk) as (dev & Hd & Hs); [by auto|]);
          simplify_eq;
          assert (truthy (Some k) = true)
            by (eapply truthy_Some, wf_key_nonempty; eassumption);
          congruence. }
  clearbody m'. destruct Hmain as (Hres & Hgone & Hother & Hev & Hsets).
  repeat split; try done.
  - unfold unregister_device. run_unfold. run_cbn. by rewrite Hgone.
  - unfold route_pointer_motion, routed_seat. run_unfold. run_cbn.
    by rewrite Hgone.
  - by eapply Hsets.
  - by eapply Hsets.
Qed.

Lemma unregister_device_effect_witness :
  let m' := run_state (unregister_device "mouse1" two_seats) in
  _devices m' !! "mouse1" = None ∧
  route_pointer_motion "mouse1" 1 1 m' = mkRun m' [] (inr None).
Proof.
  pose proof (unregister_device_effect two_seats "mouse1"
                (the_device two_seats "mouse1") 1 1) as H.
  cbv zeta in H. destruct H as (_ & H2 & _ & _ & _ & H6 & _); [by vm_compute|].
  by split.
Defined.

(** X8. In a reachable registry [auto_assign_device] puts a registered
    device without assignment on the default seat and returns the default
    seat's identifier: the default seat is always there to take it.  For a
    device that has an assignment, even one to the default seat itself, it
    raises [DeviceAlreadyAssignedError] and changes nothing. *)
Theorem auto_assign_device_default m device_id device :
  reachable m →
  _devices m !! device_id = Some device →
  let r := auto_assign_device device_id m in
  let m' := run_state r in
  (truthy (InputDevice.seat_id device) = false →
     run_result r = inr (_default_seat_id m) ∧
     InputDevice.seat_id <$> _devices m' !! device_id
     = Some (Some (_default_seat_id m)) ∧
     is_Some (default_seat m') ∧
     get_seat_for_device m' device_id = default_seat m') ∧
  (truthy (InputDevice.seat_id device) = true →
     ∃ msg, r = mkRun m [] (inl (DeviceAlreadyAssignedError msg))).
Proof.
  intros Hwf%reachable_wf Hdev r m'.
  destruct (wf_default m Hwf) as [seat Hseat].
  assert (Hne : _default_seat_id m ≠ "") by by eapply wf_key_nonempty.
  split; intros Ht.
  - assert (Hr : r = mkRun (run_state (assign_device device_id (_default_seat_id m)
                                         false m))
                       (run_trace (assign_device device_id (_default_seat_id m)
                                     false m))
                       (inr (_default_seat_id m))).
    { subst r. unfold auto_assign_device.
      unfold mbind at 1 2, M_bind, get, mret, M_ret. run_cbn.
      rewrite (assign_device_run m device_id device (_default_seat_id m) seat
                 false Hdev Ht Hseat). by cbv zeta. }
    subst m'. rewrite Hr. run_cbn.
    rewrite (assign_device_run m device_id device (_default_seat_id m) seat
               false Hdev Ht Hseat).
    cbv zeta. run_cbn. unfold default_seat, get_seat_for_device. run_cbn.
    rewrite lookup_alter_eq, Hdev. cbn [fmap option_fmap option_map].
    seat_cbn. apply truthy_Some in Hne. rewrite Hne. cbn [negb].
    repeat split; try done.
    destruct (InputDevice.has_capability device DeviceCapability.POINTER);
      destruct (InputDevice.has_capability device DeviceCapability.KEYBOARD);
      rewrite ?lookup_alter_eq, Hseat; by eexists.
  - subst r. unfold auto_assign_device, assign_device. run_unfold. run_cbn.
    rewrite Hdev. run_cbn. rewrite Hseat. run_cbn. rewrite Ht. run_cbn.
    by eexists.
Qed.

Lemma auto_assign_device_default_witness :
  run_result (auto_assign_device "keyboard1" two_seats_touch) = inr seat0_id.
Proof.
  assert (Hr : reachable two_seats_touch).
  { do 2 apply run_ops_reachable. constructor. }
  pose proof (auto_assign_device_default two_seats_touch "keyboard1"
                (the_device two_seats_touch "keyboard1") Hr) as H.
  cbv zeta in H. destruct H as [H _]; [by vm_compute|].
  destruct H as (H1 & _); [by vm_compute|]. exact H1.
Defined.

(* ===================================================================== *)
(** ** Further properties of the registry: routing and seat state *)
(* ===================================================================== *)





(* ===================================================================== *)
(** ** Further properties of the registry: grabs *)
(* ===================================================================== *)

(** X11. A pointer grab taken and released leaves no trace: on a seat that
    stores no grab, a request with a mode other than [NONE] is granted and
    makes [is_pointer_grabbed] true, the release that follows hands back the
    registry exactly as it was before the request, and the listeners have
    seen [GRAB_STARTED] and then [GRAB_ENDED]. *)
Theorem grab_then_release m seat_id seat client_id mode surface_id now :
  _seats m !! seat_id = Some seat →
  Seat.pointer_grab seat = None →
  mode ≠ GrabMode.NONE →
  let r1 := request_pointer_grab seat_id client_id mode surface_id now m in
  let r2 := release_pointer_grab seat_id (run_state r1) in
  run_result r1 = inr true ∧
  Seat.is_pointer_grabbed <$> _seats (run_state r1) !! seat_id = Some true ∧
  run_result r2 = inr () ∧
  run_state r2 = m ∧
  Event.event_type <$> (emitted <$> (run_trace r1 ++ run_trace r2)%list)
  = [EventType.GRAB_STARTED; EventType.GRAB_ENDED].
Proof.
  intros Hseat Hgrab Hmode. cbv zeta.
  assert (Hfree : Seat.is_pointer_grabbed seat = false).
  { unfold Seat.is_pointer_grabbed. by rewrite Hgrab. }
  assert (Hactive : Grab.is_active (Grab.mk mode client_id surface_id now) = true).
  { unfold Grab.is_active. cbn. by rewrite bool_decide_eq_false_2. }
  assert (Hlook : alter (Seat.set_pointer_grab client_id mode surface_id now)
                    seat_id (_seats m) !! seat_id
                  = Some (Seat.set_pointer_grab client_id mode surface_id now seat)).
  { by rewrite lookup_alter_eq, Hseat. }
  unfold request_pointer_grab, release_pointer_grab. run_unfold. run_cbn.
  rewrite Hseat. run_cbn. rewrite Hfree. run_cbn. rewrite Hlook. run_cbn.
  unfold Seat.is_pointer_grabbed at 1 2. seat_cbn. rewrite Hactive. run_cbn.
  cbn [fmap option_fmap option_map].
  unfold Seat.is_pointer_grabbed. seat_cbn. rewrite Hactive.
  repeat split; try done.
  destruct m as [seats devices ls b dflt]. unfold set_seats. run_cbn. f_equal.
  apply map_eq. intros k. destruct (decide (seat_id = k)) as [<-|Hk].
  - rewrite !lookup_alter_eq. run_cbn. rewrite Hseat.
    cbn [fmap option_fmap option_map]. f_equal.
    destruct seat. cbn in *. by subst.
  - by rewrite !lookup_alter_ne.
Qed.

Lemma grab_then_release_witness :
  let r1 := request_pointer_grab seat0_id "game-window" GrabMode.POINTER_LOCK
                                 None 7 two_seats in
  run_state (release_pointer_grab seat0_id (run_state r1)) = two_seats.
Proof.
  pose proof (grab_then_release two_seats seat0_id (the_seat two_seats seat0_id)
                "game-window" GrabMode.POINTER_LOCK None 7) as H.
  cbv zeta in H. destruct H as (_ & _ & _ & H4 & _); [by vm_compute..|].
  exact H4.
Defined.

(** The loop of [get_active_grabs], for a dictionary whose seats are stored
    under their own identifiers. *)
Lemma active_grabs_lookup (seats : gmap string Seat.t) k mode :
  (∀ j s, seats !! j = Some s → Seat.id s = j) →
  map_fold (λ _ seat grabs,
              if Seat.is_pointer_grabbed seat then
                match Seat.pointer_grab seat with
                | Some grab => <[Seat.id seat := Grab.mode grab]> grabs
                | None => grabs
                end
              else grabs) (∅ : gmap string GrabMode.t) seats !! k = Some mode ↔
  ∃ seat grab, seats !! k = Some seat ∧ Seat.pointer_grab seat = Some grab ∧
               Grab.mode grab = mode ∧ mode ≠ GrabMode.NONE.
Proof.
  revert k mode.
  apply (map_fold_weak_ind (λ r (seats : gmap string Seat.t),
    ∀ k mode, (∀ j s, seats !! j = Some s → Seat.id s = j) →
      r !! k = Some mode ↔
      ∃ seat grab, seats !! k = Some seat ∧ Seat.pointer_grab seat = Some grab ∧
                   Grab.mode grab = mode ∧ mode ≠ GrabMode.NONE)).
  - intros k mode _. rewrite lookup_empty. split; [done|].
    intros (seat & grab & Hk & _). by rewrite lookup_empty in Hk.
  - intros i x seats' r Hi IH k mode Hkeys.
    assert (Hix : Seat.id x = i) by (apply Hkeys; apply lookup_insert_eq).
    assert (Hkeys' : ∀ j s, seats' !! j = Some s → Seat.id s = j).
    { intros j s Hj. apply Hkeys. rewrite lookup_insert_ne; [done|].
      intros ->. congruence. }
    specialize (IH k mode Hkeys').
    unfold Seat.is_pointer_grabbed.
    destruct (Seat.pointer_grab x) as [g|] eqn:Hg.
    + destruct (Grab.is_active g) eqn:Hact.
      * rewrite Hix, lookup_insert. destruct (decide (i = k)) as [->|Hne].
        -- rewrite lookup_insert_eq. split.
           ++ intros [= <-]. exists x, g. repeat split; try done.
              intros Hm. unfold Grab.is_active in Hact.
              by rewrite bool_decide_eq_true_2 in Hact.
           ++ intros (seat & grab & [= <-] & Hg' & <- & _). congruence.
        -- rewrite lookup_insert_ne by done. apply IH.
      * rewrite IH. destruct (decide (i = k)) as [->|Hne].
        -- rewrite lookup_insert_eq, Hi. split.
           ++ by intros (? & ? & ? & _).
           ++ intros (seat & grab & [= <-] & Hg' & <- & Hm). exfalso.
              rewrite Hg in Hg'. injection Hg' as <-.
              unfold Grab.is_active in Hact.
              by rewrite bool_decide_eq_false_2 in Hact.
        -- by rewrite lookup_insert_ne.
    + rewrite IH. destruct (decide (i = k)) as [->|Hne].
      * rewrite lookup_insert_eq, Hi. split.
        -- by intros (? & ? & ? & _).
        -- intros (seat & grab & [= <-] & Hg' & _). congruence.
      * by rewrite lookup_insert_ne.
Qed.

(** X12. In a reachable registry [get_active_grabs] maps a seat identifier
    to a mode exactly when that seat stores a pointer grab of that mode and
    the mode is not [NONE]: a grab stored with mode [NONE] is not reported,
    and no reported mode is [NONE]. *)
Theorem get_active_grabs_spec m seat_id mode :
  reachable m →
  get_active_grabs m !! seat_id = Some mode ↔
  ∃ seat grab, _seats m !! seat_id = Some seat ∧
               Seat.pointer_grab seat = Some grab ∧
               Grab.mode grab = mode ∧ mode ≠ GrabMode.NONE.
Proof.
  intros Hwf%reachable_wf. unfold get_active_grabs.
  apply active_grabs_lookup. intros j s. apply (wf_seat_key m Hwf).
Qed.

Lemma get_active_grabs_spec_witness :
  get_active_grabs two_seats_grabbed !! seat0_id = Some GrabMode.POINTER_LOCK.
Proof.
  assert (Hr : reachable two_seats_grabbed).
  { do 2 apply run_ops_reachable. constructor. }
  apply (get_active_grabs_spec two_seats_grabbed seat0_id
           GrabMode.POINTER_LOCK Hr).
  exists (the_seat two_seats_grabbed seat0_id),
         (Grab.mk GrabMode.POINTER_LOCK "game-window" None 7).
  by vm_compute.
Defined.



(* ===================================================================== *)
(** ** Further properties of the registry: listeners *)
(* ===================================================================== *)







(* ===================================================================== *)
(** ** Invariants of reachable registries *)
(* ===================================================================== *)

(** X15. In every registry reachable from the constructor, [get_seat]
    returns a seat only under that seat's own identifier, which is never the
    empty string, and raises [SeatNotFoundError] for every other key; the
    default seat is always present, stored under [_default_seat_id]. *)
Theorem reachable_seats_well_keyed m seat_id :
  reachable m →
  (∀ seat, run_result (get_seat seat_id m) = inr seat →
           Seat.id seat = seat_id ∧ seat_id ≠ "") ∧
  (_seats m !! seat_id = None ↔
   run_result (get_seat seat_id m)
   = inl (SeatNotFoundError ("Seat " +:+ seat_id +:+ " not found"))) ∧
  (∃ seat, default_seat m = Some seat ∧ Seat.id seat = _default_seat_id m ∧
           get_seat (_default_seat_id m) m = mkRun m [] (inr seat)).
Proof.
  intros Hwf%reachable_wf. unfold get_seat, default_seat. run_unfold. run_cbn.
  split; [|split].
  - destruct (_seats m !! seat_id) as [s|] eqn:Hs; run_cbn; [|done].
    intros seat [= <-]. split; [by eapply wf_seat_key | by eapply wf_key_nonempty].
  - destruct (_seats m !! seat_id) as [s|] eqn:Hs; by run_cbn.
  - destruct (wf_default m Hwf) as [seat Hseat]. exists seat.
    rewrite Hseat. run_cbn. split; [done|]. split; [|done].
    by eapply wf_seat_key.
Qed.

Lemma reachable_seats_well_keyed_witness :
  ∃ seat, default_seat two_seats = Some seat ∧
          Seat.id seat = _default_seat_id two_seats.
Proof.
  assert (Hr : reachable two_seats).
  { apply run_ops_reachable. constructor. }
  destruct (reachable_seats_well_keyed two_seats seat0_id Hr)
    as (_ & _ & seat & H1 & H2 & _).
  exists seat. exact (conj H1 H2).
Defined.

Lemma registers_new_cleanly ops m :
  cleanly_reachable m → registers_new ops m = true →
  cleanly_reachable (run_ops ops m).
Proof.
  revert m. induction ops as [|op ops IH]; intros m Hm Hnew; [done|].
  cbn [registers_new] in Hnew. apply andb_true_iff in Hnew as [Hop Hrest].
  cbn. apply IH; [|done]. constructor; [done|].
  destruct op; try done. cbn [registers_cleanly].
  apply bool_decide_eq_true_1 in Hop. intros k s Hk Hin.
  destruct (cleanly_reachable_recorded m Hm k s _ Hk Hin) as (dev & Hdev & _).
  congruence.
Qed.

(** X16. Uniqueness of device membership holds along every sequence of
    calls on a fresh registry in which [register_device] is only handed
    identifiers that are not registered at that moment: no identifier is then
    in the pointer-device sets of two seats, nor in the keyboard-device sets
    of two seats.  Forced reassignment, unregistration and seat destruction
    all keep it. *)
Theorem uniqueness_when_registering_new default_seat_name random ops :
  registers_new ops (__init__ default_seat_name random) = true →
  unique_membership (run_ops ops (__init__ default_seat_name random)).
Proof.
  intros Hnew. apply uniqueness_without_reregistration.
  apply registers_new_cleanly; [constructor|done].
Qed.

Lemma uniqueness_when_registering_new_witness :
  unique_membership
    (run_ops [CreateSeat "aux" 1;
              RegisterDevice (mouse "mouse1"); RegisterDevice (mouse "mouse2");
              AssignDevice "mouse1" seat0_id false;
              AssignDevice "mouse2" aux_id false;
              AssignDevice "mouse1" aux_id true;
              UnregisterDevice "mouse2";
              RegisterDevice (mouse "mouse2");
              AssignDevice "mouse2" seat0_id false]
             (__init__ "seat0" 0)).
Proof.
  apply uniqueness_when_registering_new. by vm_compute.
Defined.

(** X17. Along such sequences the seats' device sets and the devices'
    [seat_id] agree: every identifier listed in a seat's pointer-device or
    keyboard-device set is a registered device, its [seat_id] is that seat,
    and [get_seat_for_device] reports that seat for it.  No seat lists an
    unregistered or an unassigned device. *)
Theorem listed_devices_are_assigned default_seat_name random ops k seat d :
  registers_new ops (__init__ default_seat_name random) = true →
  let m := run_ops ops (__init__ default_seat_name random) in
  _seats m !! k = Some seat →
  d ∈ Seat.pointer_devices seat ∨ d ∈ Seat.keyboard_devices seat →
  ∃ device, get_device d m = mkRun m [] (inr device) ∧
            InputDevice.seat_id device = Some k ∧
            InputDevice.is_assigned device = true ∧
            get_seat_for_device m d = Some seat.
Proof.
  intros Hnew m Hseat Hin.
  assert (Hclean : cleanly_reachable m).
  { apply registers_new_cleanly; [constructor|done]. }
  assert (Hwf : wf m) by by apply reachable_wf, cleanly_reachable_reachable.
  destruct (cleanly_reachable_recorded m Hclean k seat d Hseat Hin)
    as (device & Hdev & Hsid).
  assert (Hne : truthy (Some k) = true)
    by (eapply truthy_Some, wf_key_nonempty; eassumption).
  clearbody m. exists device.
  unfold get_device, get_seat_for_device, InputDevice.is_assigned.
  run_unfold. run_cbn. by rewrite Hdev, Hsid, Hne.
Qed.

Lemma listed_devices_are_assigned_witness :
  let m := run_ops [CreateSeat "aux" 1;
                    RegisterDevice (mouse "mouse1");
                    RegisterDevice (mouse "mouse2");
                    AssignDevice "mouse1" seat0_id false;
                    AssignDevice "mouse2" aux_id false]
                   (__init__ "seat0" 0) in
  ∃ device, get_device "mouse2" m = mkRun m [] (inr device) ∧
            InputDevice.seat_id device = Some aux_id.
Proof.
  intros m.
  destruct (listed_devices_are_assigned "seat0" 0
              [CreateSeat "aux" 1;
               RegisterDevice (mouse "mouse1"); RegisterDevice (mouse "mouse2");
               AssignDevice "mouse1" seat0_id false;
               AssignDevice "mouse2" aux_id false]
              aux_id (the_seat m aux_id) "mouse2")
    as (device & H1 & H2 & _).
  - by vm_compute.
  - by vm_compute.
  - left. eapply bool_decide_unpack. by vm_compute.
  - exists device. exact (conj H1 H2).
Defined.

(** X20. The registry has no keyboard-grab and no focus operation: in every
    reachable registry every seat has no keyboard grab
    ([is_keyboard_grabbed] is false), the focus it was created with, and a
    cursor of which only the position ever changed. *)
Theorem reachable_seats_untouched_fields m seat_id seat :
  reachable m →
  _seats m !! seat_id = Some seat →
  Seat.keyboard_grab seat = None ∧
  Seat.is_keyboard_grabbed seat = false ∧
  Seat.focus seat = FocusState.mk None None ∧
  Seat.cursor seat
  = Cursor.mk (Cursor.position (Seat.cursor seat)) true "default" "left_ptr" 0 0.
Proof.
  intros Hm. revert seat_id seat.
  enough (H : ∀ k s, _seats m !! k = Some s →
                     Seat.keyboard_grab s = None ∧
                     Seat.focus s = FocusState.mk None None ∧
                     Seat.cursor s
                     = Cursor.mk (Cursor.position (Seat.cursor s)) true
                                 "default" "left_ptr" 0 0).
  { intros k s Hk. destruct (H k s Hk) as (Hg & Hf & Hc).
    unfold Seat.is_keyboard_grabbed. by rewrite Hg. }
  induction Hm as [name random|m op Hm IH].
  - unfold __init__. run_cases. intros k s Hk. run_cbn. seats_inv; [done|].
    by rewrite lookup_empty in Hk.
  - destruct op; run_cases; intros ? ? Hk; run_cbn; routed_inv; seats_inv;
      seat_cbn; try (by eapply IH); try done.
    match goal with
    | H : _seats m !! _ = Some ?x |- context [Seat.cursor ?x] =>
        destruct (IH _ x H) as (Hg & Hf & Hc);
        split; [done|]; split; [done|];
        unfold Cursor.set_position, Cursor.move_by;
        destruct (Seat.cursor x); cbn in *; by simplify_eq
    end.
Qed.

Lemma reachable_seats_untouched_fields_witness :
  Seat.is_keyboard_grabbed (the_seat two_seats_grabbed seat0_id) = false.
Proof.
  assert (Hr : reachable two_seats_grabbed).
  { do 2 apply run_ops_reachable. constructor. }
  apply (reachable_seats_untouched_fields two_seats_grabbed seat0_id
           (the_seat two_seats_grabbed seat0_id) Hr).
  by vm_compute.
Defined.

(** X21. What a call emits: at most two events, and never [POINTER_AXIS] or
    [FOCUS_CHANGED]; the methods that only configure the registry
    ([set_display_bounds], [add_event_listener], [remove_event_listener])
    emit nothing, and every event names a seat or a device. *)
Theorem call_event_kinds op m :
  (length (run_trace (call op m)) ≤ 2)%nat ∧
  Forall (λ em,
            Event.event_type (emitted em) ≠ EventType.POINTER_AXIS ∧
            Event.event_type (emitted em) ≠ EventType.FOCUS_CHANGED ∧
            (is_Some (Event.seat_id (emitted em)) ∨
             is_Some (Event.device_id (emitted em))))
         (run_trace (call op m)) ∧
  (match op with
   | SetDisplayBounds _ | AddEventListener _ | RemoveEventListener _ =>
       run_trace (call op m) = []
   | _ => True
   end).
Proof.
  destruct op; run_cases; cbn [length];
    (split; [lia|]); (split; [|done]);
    repeat (apply Forall_cons; split;
            [split; [done|]; split; [done|]; cbn;
             first [left; by eexists | right; by eexists]|]);
    by apply Forall_nil.
Qed.

(* ===================================================================== *)
(** ** Further properties of the data model *)
(* ===================================================================== *)

(** X18. [Position.clamp] is idempotent for any bounds.  With
    [min <= max] on an axis the clamped coordinate lies between them and a
    coordinate already between them is kept; with the bounds crossed
    ([max < min]) every coordinate is sent to [min]. *)
Theorem clamp_spec p min_x min_y max_x max_y :
  let q := Position.clamp p min_x min_y max_x max_y in
  Position.clamp q min_x min_y max_x max_y = q ∧
  (min_x ≤ max_x → min_x ≤ Position.x q ≤ max_x) ∧
  (min_y ≤ max_y → min_y ≤ Position.y q ≤ max_y) ∧
  (min_x ≤ Position.x p ≤ max_x → Position.x q = Position.x p) ∧
  (min_y ≤ Position.y p ≤ max_y → Position.y q = Position.y p) ∧
  (max_x < min_x → Position.x q = min_x) ∧
  (max_y < min_y → Position.y q = min_y).
Proof.
  destruct p as [px py]. cbv zeta. unfold Position.clamp.
  cbn [Position.x Position.y].
  repeat split; try lia. f_equal; lia.
Qed.

Lemma clamp_spec_witness :
  Position.x (Position.clamp (Position.mk 5000 (-3)) 0 0 1919 1079) ≤ 1919 ∧
  Position.y (Position.clamp (Position.mk 5000 (-3)) 0 0 1919 1079) = 0.
Proof.
  pose proof (clamp_spec (Position.mk 5000 (-3)) 0 0 1919 1079) as H.
  cbv zeta in H. destruct H as (_ & H2 & H3 & _).
  split; [apply H2; lia|]. by vm_compute.
Defined.

(** X19. The rectangle that routing clamps to is inside the half-open
    rectangle of [DisplayBounds.contains]: on a display of width and height
    at least 1, the clamped position is always contained, and a position
    that clamping leaves where it is was contained.  A display whose width
    or height is 0 or negative contains no position at all. *)
Theorem clamp_lands_in_display b p :
  let q := Position.clamp p (DisplayBounds.x b) (DisplayBounds.y b)
             (DisplayBounds.x b + DisplayBounds.width b - 1)
             (DisplayBounds.y b + DisplayBounds.height b - 1) in
  (1 ≤ DisplayBounds.width b → 1 ≤ DisplayBounds.height b →
     DisplayBounds.contains b q = true) ∧
  (1 ≤ DisplayBounds.width b → 1 ≤ DisplayBounds.height b →
     q = p → DisplayBounds.contains b p = true) ∧
  (DisplayBounds.width b ≤ 0 ∨ DisplayBounds.height b ≤ 0 →
     DisplayBounds.contains b p = false).
Proof.
  destruct p as [px py]. destruct b as [bx by_ bw bh bn]. cbv zeta.
  unfold Position.clamp, DisplayBounds.contains.
  cbn [Position.x Position.y DisplayBounds.x DisplayBounds.y
       DisplayBounds.width DisplayBounds.height].
  repeat split.
  - intros Hw Hh. repeat (apply andb_true_intro; split); lia.
  - intros Hw Hh [= Hx Hy]. repeat (apply andb_true_intro; split); lia.
  - intros Hempty. apply not_true_is_false. intros Hc.
    repeat (apply andb_prop in Hc as [Hc ?]). lia.
Qed.

Lemma clamp_lands_in_display_witness :
  DisplayBounds.contains DisplayBounds.default
    (Position.clamp (Position.mk 5000 5000) 0 0 (0 + 1920 - 1) (0 + 1080 - 1))
  = true.
Proof.
  apply (proj1 (clamp_lands_in_display DisplayBounds.default
                  (Position.mk 5000 5000))); by vm_compute.
Defined.

(** X22. Device sets of a seat: a new seat has no pointer and no keyboard
    and is not complete; [has_pointer] holds exactly when some device is in
    the pointer set; adding a device twice is adding it once; removing a
    device that is not in the set changes nothing (there is no error), and
    removing one that was just added to a set without it restores the seat;
    a seat is complete exactly when both sets are inhabited. *)
Theorem seat_device_sets s d random name :
  Seat.is_complete (Seat.new random name) = false ∧
  (Seat.has_pointer s = true ↔ ∃ x, x ∈ Seat.pointer_devices s) ∧
  (Seat.is_complete s = true ↔
     (∃ x, x ∈ Seat.pointer_devices s) ∧ (∃ x, x ∈ Seat.keyboard_devices s)) ∧
  Seat.has_pointer (Seat.add_pointer_device d s) = true ∧
  Seat.add_pointer_device d (Seat.add_pointer_device d s)
  = Seat.add_pointer_device d s ∧
  (d ∉ Seat.pointer_devices s → Seat.remove_pointer_device d s = s) ∧
  (d ∉ Seat.pointer_devices s →
     Seat.remove_pointer_device d (Seat.add_pointer_device d s) = s) ∧
  (d ∉ Seat.keyboard_devices s →
     Seat.remove_keyboard_device d (Seat.add_keyboard_device d s) = s).
Proof.
  assert (Hsize : ∀ X : gset string, (0 < size X)%nat ↔ ∃ x, x ∈ X).
  { intros X. split; [apply size_pos_elem_of|].
    intros [x Hx]. destruct (decide (size X = 0)%nat) as [Hz|Hnz]; [|lia].
    apply size_empty_iff in Hz. set_solver. }
  split; [done|]. split; [|split; [|split]].
  - unfold Seat.has_pointer. rewrite bool_decide_eq_true. apply Hsize.
  - unfold Seat.is_complete, Seat.has_pointer, Seat.has_keyboard.
    rewrite andb_true_iff, !bool_decide_eq_true. by rewrite !Hsize.
  - unfold Seat.has_pointer. rewrite bool_decide_eq_true. apply Hsize.
    exists d. seat_cbn. set_solver.
  - destruct s. unfold Seat.add_pointer_device, Seat.remove_pointer_device,
      Seat.add_keyboard_device, Seat.remove_keyboard_device,
      Seat.set_pointer_devices, Seat.set_keyboard_devices.
    cbn. repeat split; intros; f_equal; set_solver.
Qed.

Lemma seat_device_sets_witness :
  Seat.remove_pointer_device "mouse9"
    (Seat.add_pointer_device "mouse9" (Seat.new 0 "seat0"))
  = Seat.new 0 "seat0".
Proof.
  apply (seat_device_sets (Seat.new 0 "seat0") "mouse9" 0 "seat0").
  cbn. set_solver.
Defined.
(* ===================================================================== *)
(** ** The simulated compositor *)
(* ===================================================================== *)

Ltac sim_cbn :=
  cbn [Sim.sim_state Sim.sim_trace Sim.sim_notified Sim.sim_result
       Sim.display Sim.seat_manager Sim.windows Sim.devices Sim.event_log
       Sim._event_callbacks Sim.set_seat_manager Sim.set_windows
       Sim.set_devices Sim.set_event_log Sim._emit_event fst snd] in *.

Lemma dict_get_set_eq {A} key (v : A) d :
  Sim.dict_get key (Sim.dict_set key v d) = Some v.
Proof.
  induction d as [|[k w] d IH]; cbn.
  - by rewrite bool_decide_eq_true_2.
  - destruct (decide (k = key)) as [->|Hne].
    + rewrite bool_decide_eq_true_2 by done. cbn.
      by rewrite bool_decide_eq_true_2.
    + rewrite bool_decide_eq_false_2 by done. cbn.
      by rewrite bool_decide_eq_false_2.
Qed.

Lemma dict_get_set_ne {A} key key' (v : A) d :
  key' ≠ key → Sim.dict_get key' (Sim.dict_set key v d) = Sim.dict_get key' d.
Proof.
  intros Hne. induction d as [|[k w] d IH]; cbn.
  - by rewrite bool_decide_eq_false_2.
  - destruct (decide (k = key)) as [->|Hk].
    + rewrite bool_decide_eq_true_2 by done. cbn.
      by rewrite !bool_decide_eq_false_2.
    + rewrite (bool_decide_eq_false_2 (k = key)) by done. cbn.
      by rewrite IH.
Qed.

Lemma dict_set_present {A} key (v w : A) d :
  Sim.dict_get key d = Some w → (Sim.dict_set key v d).*1 = d.*1.
Proof.
  induction d as [|[k u] d IH]; cbn; [done|].
  destruct (decide (k = key)) as [->|Hk].
  - by rewrite bool_decide_eq_true_2.
  - rewrite bool_decide_eq_false_2 by done. cbn. intros H. by rewrite IH.
Qed.

Lemma dict_set_absent {A} key (v : A) d :
  Sim.dict_get key d = None → Sim.dict_set key v d = (d ++ [(key, v)])%list.
Proof.
  induction d as [|[k u] d IH]; cbn; [done|].
  destruct (decide (k = key)) as [->|Hk].
  - by rewrite bool_decide_eq_true_2.
  - rewrite bool_decide_eq_false_2 by done. intros H. by rewrite IH.
Qed.

Lemma release_pointer_grab_run m seat_id seat :
  _seats m !! seat_id = Some seat →
  release_pointer_grab seat_id m =
    if Seat.is_pointer_grabbed seat
    then mkRun (set_seats (alter Seat.release_pointer_grab seat_id (_seats m)) m)
               [mkEmission
                  (Event.mk EventType.GRAB_ENDED (Some seat_id) None
                            [("type", VStr "pointer")])
                  (call_listeners (_event_listeners m)
                     (Event.mk EventType.GRAB_ENDED (Some seat_id) None
                               [("type", VStr "pointer")]))]
               (inr ())
    else mkRun m [] (inr ()).
Proof.
  intros Hs. run_unfold. rewrite Hs. by destruct (Seat.is_pointer_grabbed seat).
Qed.

Lemma release_pointer_grab_missing m seat_id :
  _seats m !! seat_id = None →
  release_pointer_grab seat_id m =
    mkRun m [] (inl (SeatNotFoundError ("Seat " +:+ seat_id +:+ " not found"))).
Proof. intros Hs. run_unfold. by rewrite Hs. Qed.

(** X23.  [SimulatedCompositor.release_grab] never looks at who holds the
    grab.  Whatever the compositor, the flags of the named window are
    cleared when it exists and every other window is left as it is,
    including a window the registry records as the seat's grab client.
    For a seat the registry knows, the call returns, leaves that seat's
    pointer ungrabbed and logs one GRAB_RELEASE event; for an unknown seat
    it raises [SeatNotFoundError] with the window's flags already cleared
    and nothing logged. *)
Theorem release_grab_ignores_owner c window_id seat_id now :
  let r := Sim.release_grab window_id seat_id now c in
  Sim.dict_get window_id (Sim.windows (Sim.sim_state r))
    = Sim.VirtualWindow.set_grab false None
        <$> Sim.dict_get window_id (Sim.windows c)
  ∧ (∀ w, w ≠ window_id →
       Sim.dict_get w (Sim.windows (Sim.sim_state r))
         = Sim.dict_get w (Sim.windows c))
  ∧ match _seats (Sim.seat_manager c) !! seat_id with
    | Some seat =>
        Sim.sim_result r = inr ()
        ∧ (∃ seat', _seats (Sim.seat_manager (Sim.sim_state r)) !! seat_id
                      = Some seat'
                    ∧ Seat.is_pointer_grabbed seat' = false)
        ∧ Sim.event_log (Sim.sim_state r)
            = (Sim.event_log c ++
               [Sim.SimulationEvent.mk Sim.SimulationEventType.GRAB_RELEASE
                  "" now [("window_id", Sim.VStr window_id);
                          ("seat_id", Sim.VStr seat_id)]])%list
    | None =>
        Sim.sim_result r
          = inl (SeatNotFoundError ("Seat " +:+ seat_id +:+ " not found"))
        ∧ Sim.seat_manager (Sim.sim_state r) = Sim.seat_manager c
        ∧ Sim.event_log (Sim.sim_state r) = Sim.event_log c
    end.
Proof.
  intros r. subst r. unfold Sim.release_grab.
  set (c1 := match Sim.dict_get window_id (Sim.windows c) with
             | Some window => _ | None => c end).
  assert (Hm : Sim.seat_manager c1 = Sim.seat_manager c)
    by (subst c1; by destruct (Sim.dict_get _ _)).
  assert (Hl : Sim.event_log c1 = Sim.event_log c)
    by (subst c1; by destruct (Sim.dict_get _ _)).
  assert (Hw : Sim.dict_get window_id (Sim.windows c1)
               = Sim.VirtualWindow.set_grab false None
                   <$> Sim.dict_get window_id (Sim.windows c)).
  { subst c1. destruct (Sim.dict_get _ _) eqn:E; sim_cbn.
    - by rewrite dict_get_set_eq.
    - by rewrite E. }
  assert (Ho : ∀ w, w ≠ window_id →
               Sim.dict_get w (Sim.windows c1) = Sim.dict_get w (Sim.windows c)).
  { intros w Hne. subst c1. destruct (Sim.dict_get window_id _); sim_cbn.
    - by rewrite dict_get_set_ne.
    - done. }
  clearbody c1. rewrite Hm.
  destruct (_seats (Sim.seat_manager c) !! seat_id) as [seat|] eqn:Hs.
  - rewrite (release_pointer_grab_run _ _ _ Hs).
    destruct (Seat.is_pointer_grabbed seat) eqn:Hg; run_cbn; sim_cbn; run_cbn.
    + split_and!; try done.
      * eexists. split; [by rewrite lookup_alter_eq, Hs|done].
      * by rewrite Hl.
    + split_and!; try done.
      * eexists. split; [by rewrite Hs|done].
      * by rewrite Hl.
  - rewrite (release_pointer_grab_missing _ _ Hs). run_cbn; sim_cbn; run_cbn.
    by split_and!.
Qed.

(** In the grab isolation scenario, with the game holding the default
    seat's pointer, a release in the name of the editor window frees the
    seat while the game window is still flagged as grabbing. *)
Lemma release_grab_ignores_owner_witness :
  let r := Sim.release_grab "editor" seat0_id 9 sim_game_grabbed in
  Sim.VirtualWindow.has_pointer_grab
    <$> Sim.dict_get "game" (Sim.windows (Sim.sim_state r)) = Some true
  ∧ ∃ seat', _seats (Sim.seat_manager (Sim.sim_state r)) !! seat0_id
               = Some seat'
             ∧ Seat.is_pointer_grabbed seat' = false.
Proof.
  pose proof (release_grab_ignores_owner sim_game_grabbed "editor" seat0_id 9)
    as (_ & H2 & H3).
  split.
  - rewrite (H2 "game") by discriminate. by vm_compute.
  - destruct (_seats (Sim.seat_manager sim_game_grabbed) !! seat0_id) eqn:E.
    + exact (proj1 (proj2 H3)).
    + by vm_compute in E.
Defined.

Lemma request_pointer_grab_run m seat_id client_id mode surface_id now seat :
  _seats m !! seat_id = Some seat →
  request_pointer_grab seat_id client_id mode surface_id now m =
    if Seat.is_pointer_grabbed seat
    then mkRun m [] (inr false)
    else mkRun (set_seats
                  (alter (Seat.set_pointer_grab client_id mode surface_id now)
                         seat_id (_seats m)) m)
               [mkEmission
                  (Event.mk EventType.GRAB_STARTED (Some seat_id) None
                            [("type", VStr "pointer"); ("mode", VGrabMode mode);
                             ("client_id", VStr client_id)])
                  (call_listeners (_event_listeners m)
                     (Event.mk EventType.GRAB_STARTED (Some seat_id) None
                               [("type", VStr "pointer");
                                ("mode", VGrabMode mode);
                                ("client_id", VStr client_id)]))]
               (inr true).
Proof.
  intros Hs. run_unfold. rewrite Hs. by destruct (Seat.is_pointer_grabbed seat).
Qed.

(** X24.  [SimulatedCompositor.request_grab] for a window and a seat that
    exist is granted exactly when the seat's pointer is not grabbed.  A
    denied request changes neither the windows nor the registry.  A granted
    one flags the window with the mode and makes it the grab client of the
    seat, keeps every other window and the stacking order, and the seat
    then counts as grabbed unless the mode is NONE: with mode NONE the
    window is flagged as grabbing a seat that is not grabbed. *)
Theorem request_grab_effect c window_id seat_id mode grab_now now window seat :
  Sim.dict_get window_id (Sim.windows c) = Some window →
  _seats (Sim.seat_manager c) !! seat_id = Some seat →
  let r := Sim.request_grab window_id seat_id mode grab_now now c in
  let granted := negb (Seat.is_pointer_grabbed seat) in
  Sim.sim_result r = inr granted
  ∧ (Sim.windows (Sim.sim_state r)).*1 = (Sim.windows c).*1
  ∧ (∀ w, w ≠ window_id →
       Sim.dict_get w (Sim.windows (Sim.sim_state r))
         = Sim.dict_get w (Sim.windows c))
  ∧ if granted then
      Sim.dict_get window_id (Sim.windows (Sim.sim_state r))
        = Some (Sim.VirtualWindow.set_grab true (Some mode) window)
      ∧ (∃ seat', _seats (Sim.seat_manager (Sim.sim_state r)) !! seat_id
                    = Some seat'
                  ∧ Seat.pointer_grab seat'
                      = Some (Grab.mk mode window_id None grab_now)
                  ∧ Seat.is_pointer_grabbed seat'
                      = negb (bool_decide (mode = GrabMode.NONE)))
    else
      Sim.windows (Sim.sim_state r) = Sim.windows c
      ∧ Sim.seat_manager (Sim.sim_state r) = Sim.seat_manager c.
Proof.
  intros Hw Hs r granted. subst r granted. unfold Sim.request_grab.
  rewrite Hw, (request_pointer_grab_run _ _ _ _ _ _ _ Hs).
  destruct (Seat.is_pointer_grabbed seat) eqn:Hg; run_cbn; sim_cbn; run_cbn.
  - by split_and!.
  - split_and!; try done.
    + by rewrite (dict_set_present _ _ _ _ Hw).
    + intros w Hne. by rewrite dict_get_set_ne.
    + by rewrite dict_get_set_eq.
    + eexists. split; [by rewrite lookup_alter_eq, Hs|].
      split; [done|]. unfold Seat.is_pointer_grabbed. seat_cbn.
      unfold Grab.is_active. cbn. by destruct mode.
Qed.

(** In the grab isolation scenario the game asks for the default seat with
    mode NONE: granted, the window flagged, the seat not grabbed. *)
Lemma request_grab_effect_witness :
  let r := Sim.request_grab "game" seat0_id GrabMode.NONE 7 8 sim_two_seats in
  Sim.sim_result r = inr true
  ∧ Sim.VirtualWindow.has_pointer_grab
      <$> Sim.dict_get "game" (Sim.windows (Sim.sim_state r)) = Some true
  ∧ ∃ seat', _seats (Sim.seat_manager (Sim.sim_state r)) !! seat0_id
               = Some seat'
             ∧ Seat.is_pointer_grabbed seat' = false.
Proof.
  assert (Hw : Sim.dict_get "game" (Sim.windows sim_two_seats)
               = Some (Sim.VirtualWindow.mk "game" "Fullscreen Game"
                         0 0 1920 1080 false false None)) by reflexivity.
  assert (Hs : _seats (Sim.seat_manager sim_two_seats) !! seat0_id
               = Some (the_seat (Sim.seat_manager sim_two_seats) seat0_id))
    by (by vm_compute).
  assert (Hg : Seat.is_pointer_grabbed
                 (the_seat (Sim.seat_manager sim_two_seats) seat0_id) = false)
    by (by vm_compute).
  pose proof (request_grab_effect sim_two_seats "game" seat0_id GrabMode.NONE
                7 8 _ _ Hw Hs) as (H1 & _ & _ & H4).
  cbv zeta in H1, H4. rewrite Hg in H1, H4. cbn [negb] in H1, H4.
  destruct H4 as (H4 & seat' & H5 & _ & H6).
  split; [exact H1|]. split; [by rewrite H4|].
  exists seat'. exact (conj H5 H6).
Defined.

Lemma unregister_device_ok m device_id device :
  _devices m !! device_id = Some device →
  run_result (unregister_device device_id m) = inr ()
  ∧ _devices (run_state (unregister_device device_id m)) !! device_id = None.
Proof.
  intros Hdev. destruct (truthy (InputDevice.seat_id device)) eqn:Ht.
  - destruct (InputDevice.seat_id device) as [sid|] eqn:Hsid; [|done].
    apply truthy_Some in Ht.
    pose proof (unregister_device_run_assigned m device_id device sid
                  Hdev Hsid Ht) as Hrun.
    cbv zeta in Hrun. rewrite Hrun. run_cbn.
    split; [done|]. by rewrite lookup_delete_eq.
  - pose proof (unregister_device_run_unassigned m device_id device Hdev Ht)
      as Hrun.
    cbv zeta in Hrun. rewrite Hrun. run_cbn.
    split; [done|]. by rewrite lookup_delete_eq.
Qed.

Lemma unregister_device_missing m device_id :
  _devices m !! device_id = None →
  unregister_device device_id m
  = mkRun m [] (inl (DeviceNotFoundError
                       ("Device " +:+ device_id +:+ " not found"))).
Proof. intros Hdev. run_unfold. run_cbn. by rewrite Hdev. Qed.

(** X25.  [SimulatedCompositor.disconnect_device] marks the virtual device
    as disconnected and drops it from the registry, but keeps it in the
    compositor's own device table.  So a second disconnect of the same
    device still passes the membership test, reaches the registry and
    raises [DeviceNotFoundError]; it logs no simulation event. *)
Theorem disconnect_device_twice c device_id now now' v device :
  Sim.devices c !! device_id = Some v →
  _devices (Sim.seat_manager c) !! device_id = Some device →
  let r := Sim.disconnect_device device_id now c in
  let r' := Sim.disconnect_device device_id now' (Sim.sim_state r) in
  Sim.sim_result r = inr ()
  ∧ Sim.devices (Sim.sim_state r) !! device_id
      = Some (Sim.VirtualDevice.set_is_connected false v)
  ∧ _devices (Sim.seat_manager (Sim.sim_state r)) !! device_id = None
  ∧ Sim.event_log (Sim.sim_state r)
      = (Sim.event_log c ++
         [Sim.SimulationEvent.mk Sim.SimulationEventType.DEVICE_DISCONNECTED
            device_id now []])%list
  ∧ Sim.sim_result r'
      = inl (DeviceNotFoundError ("Device " +:+ device_id +:+ " not found"))
  ∧ Sim.event_log (Sim.sim_state r') = Sim.event_log (Sim.sim_state r)
  ∧ Sim.seat_manager (Sim.sim_state r') = Sim.seat_manager (Sim.sim_state r).
Proof.
  intros Hv Hdev r r'.
  pose proof (unregister_device_ok _ _ _ Hdev) as [Hok Hgone].
  assert (Hr : Sim.sim_result r = inr ()
               ∧ Sim.devices (Sim.sim_state r) !! device_id
                   = Some (Sim.VirtualDevice.set_is_connected false v)
               ∧ _devices (Sim.seat_manager (Sim.sim_state r)) !! device_id
                   = None
               ∧ Sim.event_log (Sim.sim_state r)
                   = (Sim.event_log c ++
                      [Sim.SimulationEvent.mk
                         Sim.SimulationEventType.DEVICE_DISCONNECTED
                         device_id now []])%list).
  { subst r. unfold Sim.disconnect_device. rewrite Hv. sim_cbn.
    destruct (unregister_device device_id (Sim.seat_manager c))
      as [m1 t1 res1]. run_cbn. subst res1. sim_cbn.
    split_and!; try done. by rewrite lookup_alter_eq, Hv. }
  destruct Hr as (Hr1 & Hr2 & Hr3 & Hr4).
  split_and!; try done.
  all: subst r'; unfold Sim.disconnect_device; rewrite Hr2; sim_cbn;
    rewrite (unregister_device_missing _ _ Hr3); run_cbn; by sim_cbn.
Qed.

(** The hot-plug scenario on the first mouse of the grab isolation setup. *)
Lemma disconnect_device_twice_witness :
  let r := Sim.disconnect_device "mouse1" 9 sim_two_seats in
  let r' := Sim.disconnect_device "mouse1" 10 (Sim.sim_state r) in
  Sim.sim_result r = inr ()
  ∧ Sim.sim_result r'
      = inl (DeviceNotFoundError ("Device " +:+ "mouse1" +:+ " not found")).
Proof.
  assert (Hv : Sim.devices sim_two_seats !! "mouse1"
               = Some (virtual_mouse "mouse1" "Virtual Mouse 1"))
    by (by vm_compute).
  assert (Hd : _devices (Sim.seat_manager sim_two_seats) !! "mouse1"
               = Some (the_device (Sim.seat_manager sim_two_seats) "mouse1"))
    by (by vm_compute).
  pose proof (disconnect_device_twice sim_two_seats "mouse1" 9 10 _ _ Hv Hd)
    as (H1 & _ & _ & _ & H5 & _).
  exact (conj H1 H5).
Defined.

Lemma first_containing_Some pos ws w :
  Sim.first_containing pos ws = Some w ↔
  ∃ before after, ws = (before ++ w :: after)%list
    ∧ Forall (λ w', Sim.VirtualWindow.contains w' pos = false) before
    ∧ Sim.VirtualWindow.contains w pos = true.
Proof.
  induction ws as [|w0 ws IH]; cbn.
  - split; [done|]. intros (before & after & Heq & _). by destruct before.
  - destruct (Sim.VirtualWindow.contains w0 pos) eqn:Hc.
    + split.
      * intros [= <-]. exists [], ws. split; [done|]. split; [|done].
        by apply Forall_nil.
      * intros (before & after & Heq & Hall & Hw).
        destruct before as [|b before]; cbn in Heq; simplify_eq; [done|].
        apply Forall_cons in Hall as [Hb _]. congruence.
    + rewrite IH. split.
      * intros (before & after & -> & Hall & Hw).
        exists (w0 :: before), after. split; [done|]. split; [|done].
        by apply Forall_cons.
      * intros (before & after & Heq & Hall & Hw).
        destruct before as [|b before]; cbn in Heq; simplify_eq.
        -- congruence.
        -- apply Forall_cons in Hall as [_ Hall]. by exists before, after.
Qed.

Lemma first_containing_None pos ws :
  Sim.first_containing pos ws = None ↔
  Forall (λ w', Sim.VirtualWindow.contains w' pos = false) ws.
Proof.
  induction ws as [|w0 ws IH]; cbn.
  - split; [|done]. intros _. by apply Forall_nil.
  - destruct (Sim.VirtualWindow.contains w0 pos) eqn:Hc.
    + split; [done|]. intros [Hb _]%Forall_cons. congruence.
    + rewrite IH. split.
      * intros Hall. by apply Forall_cons.
      * by intros [_ Hall]%Forall_cons.
Qed.

(** X26.  [SimulatedCompositor.get_window_at] returns the topmost window
    under the position, where a window is above those inserted into the
    dictionary before it: the result is a window that contains the
    position and no window after it in insertion order does; the result is
    [None] exactly when no window contains the position. *)
Theorem get_window_at_topmost c pos :
  (∀ w, Sim.get_window_at pos c = Some w ↔
        ∃ below above, (Sim.windows c).*2 = (below ++ w :: above)%list
          ∧ Sim.VirtualWindow.contains w pos = true
          ∧ Forall (λ w', Sim.VirtualWindow.contains w' pos = false) above)
  ∧ (Sim.get_window_at pos c = None ↔
     Forall (λ w', Sim.VirtualWindow.contains w' pos = false)
            (Sim.windows c).*2).
Proof.
  unfold Sim.get_window_at. split.
  - intros w. rewrite first_containing_Some. split.
    + intros (before & after & Heq & Hall & Hw).
      exists (reverse after), (reverse before).
      apply (f_equal reverse) in Heq. rewrite reverse_involutive in Heq.
      rewrite Heq, reverse_app, reverse_cons, <- app_assoc. cbn.
      split; [done|]. split; [done|]. by apply Forall_reverse.
    + intros (below & above & Heq & Hw & Hall).
      exists (reverse above), (reverse below).
      rewrite Heq, reverse_app, reverse_cons, <- app_assoc. cbn.
      split; [done|]. split; [|done]. by apply Forall_reverse.
  - rewrite first_containing_None. by rewrite Forall_reverse.
Qed.

Lemma dict_set_values_absent {A} key (v : A) d :
  Sim.dict_get key d = None → (Sim.dict_set key v d).*2 = (d.*2 ++ [v])%list.
Proof. intros H. rewrite (dict_set_absent _ _ _ H). by rewrite fmap_app. Qed.

(** X27.  [SimulatedCompositor.create_window] puts a window with a new
    identifier on top: it is what [get_window_at] returns for every
    position it contains.  With an identifier already in use the new window
    replaces the old one in its place of the stacking order, below the
    windows created since. *)
Theorem create_window_stacking c window_id title x y width height :
  let c' := (Sim.create_window window_id title x y width height c).1 in
  let window := (Sim.create_window window_id title x y width height c).2 in
  Sim.dict_get window_id (Sim.windows c') = Some window
  ∧ (Sim.dict_get window_id (Sim.windows c) = None →
     ∀ pos, Sim.VirtualWindow.contains window pos = true →
            Sim.get_window_at pos c' = Some window)
  ∧ (∀ old, Sim.dict_get window_id (Sim.windows c) = Some old →
     (Sim.windows c').*1 = (Sim.windows c).*1).
Proof.
  intros c' window. subst c' window. unfold Sim.create_window. sim_cbn.
  split; [by rewrite dict_get_set_eq|]. split.
  - intros Hnew pos Hin. unfold Sim.get_window_at. sim_cbn.
    rewrite (dict_set_values_absent _ _ _ Hnew), reverse_app. cbn.
    by rewrite Hin.
  - intros old Hold. by rewrite (dict_set_present _ _ _ _ Hold).
Qed.

(** The editor window created over the game window is on top at a point of
    both; created again, the game window stays below it. *)
Lemma create_window_stacking_witness :
  let c := (Sim.create_window "editor" "Editor" 0 0 960 1080 sim_two_seats).1 in
  let editor := (Sim.create_window "editor" "Editor" 0 0 960 1080 sim_two_seats).2 in
  Sim.get_window_at (Position.mk 100 100) c = Some editor
  ∧ ((Sim.create_window "game" "Fullscreen Game" 0 0 1920 1080 c).1).(Sim.windows).*1
    = (Sim.windows c).*1.
Proof.
  pose proof (create_window_stacking sim_two_seats "editor" "Editor" 0 0 960 1080)
    as (_ & H2 & _).
  pose proof (create_window_stacking
                (Sim.create_window "editor" "Editor" 0 0 960 1080 sim_two_seats).1
                "game" "Fullscreen Game" 0 0 1920 1080)
    as (_ & _ & H3).
  split.
  - apply H2; reflexivity.
  - eapply H3. reflexivity.
Defined.



Lemma run_steps_count i steps c :
  let '(_, n, errs) := Sim.run_steps i steps c in
  (n ≤ length steps)%nat
  ∧ (n = length steps ↔ errs = [])
  ∧ (length errs ≤ 1)%nat.
Proof.
  revert i c. induction steps as [|step steps IH]; intros i c; cbn.
  - split; [lia|]. split; [done|lia].
  - destruct (step c) as [c' [[|]|e]]; cbn.
    + specialize (IH (S i) c').
      destruct (Sim.run_steps (S i) steps c') as [[c'' n] errs].
      destruct IH as (Hle & Hiff & Hlen).
      split; [lia|]. split; [|done]. rewrite <- Hiff. lia.
    + split; [lia|]. split; [|lia]. split; [lia|done].
    + split; [lia|]. split; [|lia]. split; [lia|done].
Qed.

Lemma run_steps_stops i pre bad post c :
  (Sim.run_steps i pre c).1.2 = length pre →
  (bad (Sim.run_steps i pre c).1.1).2 ≠ Sim.StepReturned true →
  (Sim.run_steps i (pre ++ bad :: post) c).1
  = ((bad (Sim.run_steps i pre c).1.1).1, length pre).
Proof.
  revert i c. induction pre as [|step pre IH]; intros i c; cbn.
  - intros _ Hbad. destruct (bad c) as [c' [[|]|e]]; cbn in *; done.
  - destruct (step c) as [c' [[|]|e]]; cbn; [|done..].
    specialize (IH (S i) c').
    destruct (Sim.run_steps (S i) pre c') as [[c1 n1] e1]. cbn in *.
    intros [= Hn] Hbad. specialize (IH Hn Hbad).
    destruct (Sim.run_steps (S i) (pre ++ bad :: post) c') as [[c2 n2] e2].
    cbn in *. by simplify_eq.
Qed.

(** X29.  [ScenarioRunner.run_scenario] appends one result and returns its
    [passed] field, which is true exactly when every step was counted, and
    exactly when no error was recorded; at most one error is recorded.  The
    loop stops at the first step that returns false or raises: when the
    steps before it all pass, the scenario fails, the compositor is left as
    that step left it, and the steps behind it are never run. *)
Theorem run_scenario_spec name steps description self :
  let out := Sim.run_scenario name steps description self in
  (∃ res, Sim.results out.1 = (Sim.results self ++ [res])%list
     ∧ Sim.passed res = out.2
     ∧ Sim.steps_total res = length steps
     ∧ (Sim.steps_passed res ≤ length steps)%nat
     ∧ (out.2 = true ↔ Sim.steps_passed res = length steps)
     ∧ (out.2 = true ↔ Sim.errors res = [])
     ∧ (length (Sim.errors res) ≤ 1)%nat)
  ∧ (∀ pre bad post,
       steps = (pre ++ bad :: post)%list →
       let before := Sim.run_scenario name pre description self in
       before.2 = true →
       (bad (Sim.compositor before.1)).2 ≠ Sim.StepReturned true →
       out.2 = false
       ∧ Sim.compositor out.1 = (bad (Sim.compositor before.1)).1).
Proof.
  intros out. subst out. unfold Sim.run_scenario. split.
  - pose proof (run_steps_count 0 steps (Sim.compositor self)) as Hc.
    destruct (Sim.run_steps 0 steps (Sim.compositor self)) as [[c n] errs].
    destruct Hc as (Hle & Hiff & Hlen). cbn.
    eexists. split; [done|]. cbn.
    split; [done|]. split; [done|]. split; [done|].
    rewrite bool_decide_eq_true. by split_and!.
  - intros pre bad post ->. cbv zeta.
    pose proof (run_steps_stops 0 pre bad post (Sim.compositor self)) as Hs.
    unfold Sim.Step in *.
    destruct (Sim.run_steps 0 pre (Sim.compositor self)) as [[c1 n1] e1].
    destruct (Sim.run_steps 0 (pre ++ bad :: post) (Sim.compositor self))
      as [[c2 n2] e2].
    cbn in *. intros Hpass Hbad.
    apply bool_decide_eq_true in Hpass. specialize (Hs Hpass Hbad).
    simplify_eq. split; [|done].
    apply bool_decide_eq_false. rewrite length_app. cbn. lia.
Qed.

(** The first mouse of the grab isolation setup is disconnected twice, then
    the second mouse once: the second step raises, the scenario fails, and
    the third step is not run. *)
Lemma run_scenario_spec_witness :
  let self := Sim.mkScenarioRunner sim_two_seats [] in
  let out := Sim.run_scenario "hotplug"
               ([step2_disconnect "mouse1" 9]
                ++ step2_disconnect "mouse1" 10
                   :: [step2_disconnect "mouse2" 11])%list "" self in
  let before := Sim.run_scenario "hotplug" [step2_disconnect "mouse1" 9] ""
                                 self in
  out.2 = false
  ∧ Sim.compositor out.1
    = (step2_disconnect "mouse1" 10 (Sim.compositor before.1)).1.
Proof.
  intros self out before.
  pose proof (run_scenario_spec "hotplug"
                ([step2_disconnect "mouse1" 9]
                 ++ step2_disconnect "mouse1" 10
                    :: [step2_disconnect "mouse2" 11])%list "" self)
    as [_ H].
  apply (H [step2_disconnect "mouse1" 9] (step2_disconnect "mouse1" 10)
           [step2_disconnect "mouse2" 11]).
  - reflexivity.
  - by vm_compute.
  - by vm_compute.
Defined.

Lemma route_pointer_button_frame m device_id button pressed :
  run_state (route_pointer_button device_id button pressed m) = m
  ∧ run_result (route_pointer_button device_id button pressed m)
    = inr ((Seat.id ∘ snd) <$> routed_seat m device_id).
Proof.
  unfold route_pointer_button. run_unfold. run_cbn.
  by destruct (routed_seat m device_id) as [[key seat]|].
Qed.

Lemma route_keyboard_key_frame m device_id key pressed :
  run_state (route_keyboard_key device_id key pressed m) = m
  ∧ run_result (route_keyboard_key device_id key pressed m)
    = inr ((Seat.id ∘ snd) <$> routed_seat m device_id).
Proof.
  unfold route_keyboard_key. run_unfold. run_cbn.
  by destruct (routed_seat m device_id) as [[k seat]|].
Qed.

(** X30.  [click_button] and [press_key] on a device of the compositor keep
    the virtual device's pressed sets in step with the input whether or not
    the registry routes the event: afterwards the button (key) is in the
    set exactly when it was pressed, every other button (key) is as before,
    and the other set and the position are untouched.  Neither call
    changes the registry or the windows, both return the seat the registry
    routes the device to, if any, and log one simulation event. *)
Theorem pressed_state_tracks_input c device_id n pressed now v :
  Sim.devices c !! device_id = Some v →
  let r := Sim.click_button device_id n pressed now c in
  let r' := Sim.press_key device_id n pressed now c in
  let routed := (Seat.id ∘ snd) <$> routed_seat (Sim.seat_manager c) device_id in
  (Sim.sim_result r = inr routed
   ∧ Sim.seat_manager (Sim.sim_state r) = Sim.seat_manager c
   ∧ Sim.windows (Sim.sim_state r) = Sim.windows c
   ∧ length (Sim.event_log (Sim.sim_state r)) = S (length (Sim.event_log c))
   ∧ ∃ v', Sim.devices (Sim.sim_state r) !! device_id = Some v'
       ∧ (∀ k, k ∈ Sim.VirtualDevice.buttons_pressed v' ↔
               (k = n ∧ pressed = true)
               ∨ (k ≠ n ∧ k ∈ Sim.VirtualDevice.buttons_pressed v))
       ∧ Sim.VirtualDevice.keys_pressed v' = Sim.VirtualDevice.keys_pressed v
       ∧ Sim.VirtualDevice.position v' = Sim.VirtualDevice.position v)
  ∧ (Sim.sim_result r' = inr routed
     ∧ Sim.seat_manager (Sim.sim_state r') = Sim.seat_manager c
     ∧ Sim.windows (Sim.sim_state r') = Sim.windows c
     ∧ length (Sim.event_log (Sim.sim_state r')) = S (length (Sim.event_log c))
     ∧ ∃ v', Sim.devices (Sim.sim_state r') !! device_id = Some v'
         ∧ (∀ k, k ∈ Sim.VirtualDevice.keys_pressed v' ↔
                 (k = n ∧ pressed = true)
                 ∨ (k ≠ n ∧ k ∈ Sim.VirtualDevice.keys_pressed v))
         ∧ Sim.VirtualDevice.buttons_pressed v'
             = Sim.VirtualDevice.buttons_pressed v
         ∧ Sim.VirtualDevice.position v' = Sim.VirtualDevice.position v).
Proof.
  intros Hv r r' routed. subst r r' routed. split.
  - unfold Sim.click_button. rewrite Hv. sim_cbn.
    pose proof (route_pointer_button_frame (Sim.seat_manager c) device_id n
                  pressed) as [Hst Hres].
    destruct (route_pointer_button device_id n pressed (Sim.seat_manager c))
      as [m1 t1 res1].
    run_cbn. subst m1 res1. sim_cbn.
    split_and!; try done.
    + rewrite length_app. cbn. lia.
    + eexists. split; [by rewrite lookup_alter_eq, Hv|]. cbn.
      split; [|done]. intros k. destruct (decide (k = n)); destruct pressed; set_solver.
  - unfold Sim.press_key. rewrite Hv. sim_cbn.
    pose proof (route_keyboard_key_frame (Sim.seat_manager c) device_id n
                  pressed) as [Hst Hres].
    destruct (route_keyboard_key device_id n pressed (Sim.seat_manager c))
      as [m1 t1 res1].
    run_cbn. subst m1 res1. sim_cbn.
    split_and!; try done.
    + rewrite length_app. cbn. lia.
    + eexists. split; [by rewrite lookup_alter_eq, Hv|]. cbn.
      split; [|done]. intros k. destruct (decide (k = n)); destruct pressed; set_solver.
Qed.

(** The second mouse of the grab isolation setup releases a button it
    never pressed. *)
Lemma pressed_state_tracks_input_witness :
  let r := Sim.click_button "mouse2" 1 false 9 sim_two_seats in
  Sim.sim_result r = inr (Some aux_id)
  ∧ Sim.seat_manager (Sim.sim_state r) = Sim.seat_manager sim_two_seats.
Proof.
  assert (Hv : Sim.devices sim_two_seats !! "mouse2"
               = Some (virtual_mouse "mouse2" "Virtual Mouse 2"))
    by (by vm_compute).
  pose proof (pressed_state_tracks_input sim_two_seats "mouse2" 1 false 9 _ Hv)
    as ((H1 & H2 & _) & _).
  cbv zeta in H1, H2. split; [|exact H2].
  rewrite H1. by vm_compute.
Defined.
